(** * Fertilizer recommendation pipeline: name normalisation, price lookup
      and LLM report generation

    A shallow embedding of [app/price_provider.py] and [llm.py].

    Python values are modelled as follows.
    - A [str] is the list of its Unicode code points ([pystr]); [py "..."]
      turns an ASCII literal into that list.  [str.lower()] follows
      CPython, with the tables of the Unicode database ([UnicodeData]) as a
      parameter; on ASCII text it does not depend on them.
    - A [dict] is an association list in insertion order with unique keys
      ([dict_set] overwrites in place, as Python does).
    - A raised exception is the [Raises] case of [outcome]; every exception
      modelled is an instance of [Exception], which is what the [except]
      clauses of [llm.py] catch.
    - What [llm.py] reads from outside itself (environment, service, clock,
      float and serialisation primitives) is a [World]; a call returns its
      outcome together with the requests it sent to the service.
    - [json.loads] follows CPython's scanner, with the interpreter's
      recursion allowance as a parameter. *)

From Stdlib Require Import List NArith ZArith QArith String Ascii Bool Lia.
Import ListNotations.

Local Open Scope N_scope.

(** ** Python strings *)

Definition pystr := list N.

Definition py (s : string) : pystr :=
  map N_of_ascii (list_ascii_of_string s).

Fixpoint pystr_eqb (a b : pystr) : bool :=
  match a, b with
  | [], [] => true
  | x :: a', y :: b' => (x =? y) && pystr_eqb a' b'
  | _, _ => false
  end.

(** [str.isspace] on one code point (CPython's [_PyUnicode_IsWhitespace]). *)
Definition is_space (c : N) : bool :=
  ((9 <=? c) && (c <=? 13)) || ((28 <=? c) && (c <=? 32))
  || (c =? 133) || (c =? 160) || (c =? 5760)
  || ((8192 <=? c) && (c <=? 8202))
  || (c =? 8232) || (c =? 8233) || (c =? 8239) || (c =? 8287) || (c =? 12288).

(** [str.lstrip()]: drop the leading whitespace. *)
Fixpoint lstrip (s : pystr) : pystr :=
  match s with
  | [] => []
  | c :: t => if is_space c then lstrip t else s
  end.

(** [str.rstrip()]: drop the trailing whitespace. *)
Fixpoint rstrip (s : pystr) : pystr :=
  match s with
  | [] => []
  | c :: t =>
      match rstrip t with
      | [] => if is_space c then [] else [c]
      | t' => c :: t'
      end
  end.

(** [str.strip()] with no argument. *)
Definition strip (s : pystr) : pystr := rstrip (lstrip s).

(** The lowercase of an ASCII code point: the letters A-Z move to a-z. *)
Definition lower_char (c : N) : N :=
  if (65 <=? c) && (c <=? 90) then c + 32 else c.

Definition is_ascii (c : N) : bool := c <? 128.

(** The lowercase form of a string of ASCII characters. *)
Definition ascii_lower (s : pystr) : pystr := map lower_char s.

(** The tables of the interpreter's Unicode database that [str.lower()]
    reads; they are no part of the repository and are taken as given.
    [tolower_full] is the full lowercase mapping of a code point above the
    ASCII range (one to three code points), [is_cased] and
    [is_case_ignorable] are the properties Cased and Case_Ignorable. *)
Record UnicodeData : Type := mkUnicodeData {
  tolower_full : N -> pystr;
  is_cased : N -> bool;
  is_case_ignorable : N -> bool
}.

(** [_PyUnicode_ToLowerFull]: the ASCII range is fixed, the rest comes from
    the database. *)
Definition to_lower_full (ud : UnicodeData) (c : N) : pystr :=
  if is_ascii c then [lower_char c] else tolower_full ud c.

Fixpoint skip_case_ignorable (ud : UnicodeData) (s : pystr) : pystr :=
  match s with
  | [] => []
  | c :: t => if is_case_ignorable ud c then skip_case_ignorable ud t else s
  end.

(** [handle_capital_sigma]: a capital sigma (U+03A3) becomes the final
    sigma (U+03C2) when the nearest character before it that is not case
    ignorable is cased and the nearest such character after it, if any, is
    not; else the small sigma (U+03C3).  [before] is the text before the
    sigma, nearest character first. *)
Definition handle_capital_sigma (ud : UnicodeData) (before after : pystr) : N :=
  let final_sigma :=
    match skip_case_ignorable ud before with
    | c :: _ => is_cased ud c
    | [] => false
    end
    && match skip_case_ignorable ud after with
       | [] => true
       | c :: _ => negb (is_cased ud c)
       end in
  if final_sigma then 962 else 963.

(** [do_lower]: the characters of [s] one by one, [before] being what was
    read already, nearest character first. *)
Fixpoint lower_from (ud : UnicodeData) (before s : pystr) : pystr :=
  match s with
  | [] => []
  | c :: t =>
      (if c =? 931 then [handle_capital_sigma ud before t] else to_lower_full ud c)
      ++ lower_from ud (c :: before) t
  end.

(** [str.lower()] *)
Definition lower (ud : UnicodeData) (s : pystr) : pystr := lower_from ud [] s.

(** ** Python dictionaries with [str] keys *)

Section Dict.
Context {V : Type}.

(** [d.get(k)] *)
Fixpoint dict_get (d : list (pystr * V)) (k : pystr) : option V :=
  match d with
  | [] => None
  | (k', v) :: d' => if pystr_eqb k' k then Some v else dict_get d' k
  end.

(** [d.get(k, default)] *)
Definition dict_get_default (d : list (pystr * V)) (k : pystr) (default : V) : V :=
  match dict_get d k with
  | Some v => v
  | None => default
  end.

(** [d[k] = v]: an existing key keeps its position, a new key goes last. *)
Fixpoint dict_set (d : list (pystr * V)) (k : pystr) (v : V) : list (pystr * V) :=
  match d with
  | [] => [(k, v)]
  | (k', v') :: d' =>
      if pystr_eqb k' k then (k', v) :: d' else (k', v') :: dict_set d' k v
  end.
End Dict.

(** ** app/price_provider.py *)

Definition FERT_ALIAS : list (pystr * pystr) :=
  [ (py "mop", py "MOP"); (py "murate of potash", py "MOP");
    (py "muriate of potash", py "MOP"); (py "potassium chloride", py "MOP");
    (py "sop", py "SOP"); (py "potassium sulfate", py "SOP");
    (py "potassium sulphate", py "SOP");
    (py "urea", py "Urea"); (py "dap", py "DAP");
    (py "diammonium phosphate", py "DAP");
    (py "can", py "Calcium Ammonium Nitrate");
    (py "calcium ammonium nitrate", py "Calcium Ammonium Nitrate");
    (py "ammonium sulphate", py "Ammonium Sulphate");
    (py "ammonium sulfate", py "Ammonium Sulphate");
    (py "vermicompost", py "Vermicompost"); (py "neem cake", py "Neem Cake");
    (py "bone meal", py "Bone Meal");
    (py "compost", py "Compost"); (py "poultry manure", py "Poultry manure");
    (py "wood ash", py "Wood Ash");
    (py "psb", py "PSB"); (py "phosphate solubilizing bacteria", py "PSB");
    (py "rhizobium", py "Rhizobium"); (py "azospirillum", py "Azospirillum");
    (py "azotobacter", py "Azotobacter") ].

(** [normalize_name(name: Optional[str]) -> Optional[str]].
    [if not name] holds for [None] and for the empty string only. *)
Definition normalize_name (ud : UnicodeData) (name : option pystr) : option pystr :=
  match name with
  | None => None
  | Some [] => None
  | Some s =>
      let key := lower ud (strip s) in
      Some (dict_get_default FERT_ALIAS key (strip s))
  end.

(** [live_price_provider(name, region=None) -> Optional[float]]: the name is
    normalised, the result is discarded and [None] is returned. *)
Definition live_price_provider (ud : UnicodeData) (name : pystr) (region : option pystr)
  : option Q :=
  let canon := normalize_name ud (Some name) in
  None.

Definition option_pystr_eqb (a b : option pystr) : bool :=
  match a, b with
  | Some x, Some y => pystr_eqb x y
  | None, None => true
  | _, _ => false
  end.

(** What holds of each entry: the key is found under itself (no key occurs
    twice with different values), it is not empty, it is trimmed, and the
    canonical name is a fixed point of [normalize_name]. *)
Definition alias_entry_ok (ud : UnicodeData) (kv : pystr * pystr) : bool :=
  let (k, v) := kv in
  option_pystr_eqb (dict_get FERT_ALIAS k) (Some v)
  && negb (pystr_eqb k [])
  && pystr_eqb (lstrip k) k && pystr_eqb (rstrip k) k
  && option_pystr_eqb (normalize_name ud (Some v)) (Some v).

(** An excerpt of the Unicode database, enough for the names used in the
    examples: the capitals of Latin-1, the Kelvin sign (U+212A, lowercase k)
    and the dotted capital I (U+0130, lowercase i and a combining dot). *)
Definition sample_unicode : UnicodeData :=
  mkUnicodeData
    (fun c =>
       if c =? 8490 then [107]
       else if c =? 304 then [105; 775]
       else if (192 <=? c) && (c <=? 222) && negb (c =? 215) then [c + 32]
       else [c])
    (fun c =>
       ((65 <=? c) && (c <=? 90)) || ((97 <=? c) && (c <=? 122))
       || ((192 <=? c) && (c <=? 255) && negb (c =? 215) && negb (c =? 247))
       || (c =? 8490) || (c =? 304))
    (fun c =>
       (c =? 39) || (c =? 46) || (c =? 58) || (c =? 94) || (c =? 96)
       || (c =? 173) || (c =? 183) || (c =? 775)).

(** ** Python values, exceptions and outcomes *)

(** JSON-compatible Python values.  A [float] is kept as the decimal literal
    it was read from ([float(lexeme)]); no claim below computes with it. *)
#[local] Set Warnings "-register-all".

Inductive pyval : Type :=
| PNone
| PBool (b : bool)
| PInt (z : Z)
| PFloat (lexeme : pystr)
| PStr (s : pystr)
| PList (l : list pyval)
| PDict (d : list (pystr * pyval)).

Definition pydict := list (pystr * pyval).

Inductive exc_class : Type :=
| RuntimeError
| TypeError
| ValueError
| OverflowError
| RecursionError
| JSONDecodeError
| OtherException (name : pystr).

(** An instance of a subclass of [Exception]; [exc_msg] is [str(e)]. *)
Record exn : Type := mkExn { exc_type : exc_class; exc_msg : pystr }.

Inductive outcome (A : Type) : Type :=
| Returns (a : A)
| Raises (e : exn).
Arguments Returns {A} a.
Arguments Raises {A} e.

(** [type(v).__name__] *)
Definition type_name (v : pyval) : pystr :=
  match v with
  | PNone => py "NoneType"
  | PBool _ => py "bool"
  | PInt _ => py "int"
  | PFloat _ => py "float"
  | PStr _ => py "str"
  | PList _ => py "list"
  | PDict _ => py "dict"
  end.

(** [data[key] = value] with a [str] key: only a [dict] accepts it. *)
Definition setitem (data : pyval) (key : pystr) (value : pyval) : outcome pyval :=
  match data with
  | PDict d => Returns (PDict (dict_set d key value))
  | PList _ =>
      Raises (mkExn TypeError (py "list indices must be integers or slices, not str"))
  | _ =>
      Raises (mkExn TypeError
                (py "'" ++ type_name data ++ py "' object does not support item assignment"))
  end.

(** ** The runtime's [json.loads] (CPython's C scanner, default decoder) *)

Definition json_error (msg : string) : exn := mkExn JSONDecodeError (py msg).

Definition is_json_ws (c : N) : bool :=
  (c =? 32) || (c =? 9) || (c =? 10) || (c =? 13).

Fixpoint skip_ws (s : pystr) : pystr :=
  match s with
  | [] => []
  | c :: t => if is_json_ws c then skip_ws t else s
  end.

Definition is_digit (c : N) : bool := (48 <=? c) && (c <=? 57).

Definition hex_digit (c : N) : option N :=
  if is_digit c then Some (c - 48)
  else if (97 <=? c) && (c <=? 102) then Some (c - 87)
  else if (65 <=? c) && (c <=? 70) then Some (c - 55)
  else None.

Definition hex4 (a b c d : N) : option N :=
  match hex_digit a, hex_digit b, hex_digit c, hex_digit d with
  | Some x, Some y, Some z, Some w => Some (((x * 16 + y) * 16 + z) * 16 + w)
  | _, _, _, _ => None
  end.

Definition is_high_surrogate (u : N) : bool := (55296 <=? u) && (u <=? 56319).
Definition is_low_surrogate (u : N) : bool := (56320 <=? u) && (u <=? 57343).
Definition join_surrogates (hi lo : N) : N :=
  65536 + (hi - 55296) * 1024 + (lo - 56320).

(** The one-character escapes after a backslash. *)
Definition unescape (c : N) : option N :=
  if (c =? 34) || (c =? 92) || (c =? 47) then Some c
  else if c =? 98 then Some 8
  else if c =? 102 then Some 12
  else if c =? 110 then Some 10
  else if c =? 114 then Some 13
  else if c =? 116 then Some 9
  else None.

(** [scanstring] in strict mode, called just after the opening quote;
    [acc] holds the decoded characters in reverse. *)
Fixpoint scanstring (s : pystr) (acc : pystr) {struct s} : outcome (pystr * pystr) :=
  match s with
  | [] => Raises (json_error "Unterminated string starting at")
  | c :: t =>
      if c =? 34 then Returns (rev acc, t)
      else if c =? 92 then
        match t with
        | [] => Raises (json_error "Unterminated string starting at")
        | e :: t1 =>
            if e =? 117 then
              match t1 with
              | h1 :: h2 :: h3 :: h4 :: ((_ :: _) as r) =>
                  match hex4 h1 h2 h3 h4 with
                  | None => Raises (json_error "Invalid \uXXXX escape")
                  | Some u =>
                      match r with
                      | b :: x :: g1 :: g2 :: g3 :: g4 :: ((_ :: _) as r2) =>
                          if is_high_surrogate u && (b =? 92) && (x =? 117) then
                            match hex4 g1 g2 g3 g4 with
                            | None => Raises (json_error "Invalid \uXXXX escape")
                            | Some u2 =>
                                if is_low_surrogate u2
                                then scanstring r2 (join_surrogates u u2 :: acc)
                                else scanstring r (u :: acc)
                            end
                          else scanstring r (u :: acc)
                      | _ => scanstring r (u :: acc)
                      end
                  end
              | _ => Raises (json_error "Invalid \uXXXX escape")
              end
            else
              match unescape e with
              | Some ch => scanstring t1 (ch :: acc)
              | None => Raises (json_error "Invalid \escape")
              end
        end
      else if c <=? 31 then Raises (json_error "Invalid control character at")
      else scanstring t (c :: acc)
  end.

(** The longest prefix of decimal digits and what follows it. *)
Fixpoint span_digits (s : pystr) : pystr * pystr :=
  match s with
  | [] => ([], [])
  | c :: t =>
      if is_digit c then let (ds, r) := span_digits t in (c :: ds, r)
      else ([], s)
  end.

(** [int(digits)] for a string of decimal digits. *)
Definition int_of_digits (ds : pystr) : Z :=
  fold_left (fun acc c => (acc * 10 + Z.of_N (c - 48))%Z) ds 0%Z.

(** The integer part of a number: a zero, or a digit from 1 to 9 and any
    digits. *)
Definition scan_int_part (s : pystr) : option (pystr * pystr) :=
  match s with
  | [] => None
  | c :: t =>
      if (49 <=? c) && (c <=? 57) then
        let (ds, r) := span_digits t in Some (c :: ds, r)
      else if c =? 48 then Some ([c], t)
      else None
  end.

(** The optional fraction: a dot and one or more digits. *)
Definition scan_fraction (s : pystr) : pystr * pystr :=
  match s with
  | d :: x :: r =>
      if (d =? 46) && is_digit x then
        let (ds, r') := span_digits r in (d :: x :: ds, r')
      else ([], s)
  | _ => ([], s)
  end.

(** The optional exponent: e or E, an optional sign and one or more
    digits; nothing is consumed when the digits are missing. *)
Definition scan_exponent (s : pystr) : pystr * pystr :=
  match s with
  | e :: r =>
      if (e =? 101) || (e =? 69) then
        let '(sign, r') :=
          match r with
          | sg :: (_ :: _) as r1 =>
              if (sg =? 43) || (sg =? 45) then ([sg], r1) else ([], r)
          | _ => ([], r)
          end in
        let (ds, r'') := span_digits r' in
        match ds with
        | [] => ([], s)
        | _ => (e :: sign ++ ds, r'')
        end
      else ([], s)
  | [] => ([], s)
  end.

(** [_match_number] at the start of [s]: an optional minus sign, the integer
    part, the optional fraction and the optional exponent.  The result is an
    [int] without fraction and exponent, else a [float]. *)
Definition match_number (s : pystr) : option (pyval * pystr) :=
  let '(neg, s1) :=
    match s with
    | c :: t => if c =? 45 then (true, t) else (false, s)
    | [] => (false, s)
    end in
  match scan_int_part s1 with
  | None => None
  | Some (ip, r) =>
      let '(frac, r1) := scan_fraction r in
      let '(expo, r2) := scan_exponent r1 in
      match frac, expo with
      | [], [] =>
          Some (PInt (if neg then - int_of_digits ip else int_of_digits ip)%Z, r2)
      | _, _ =>
          Some (PFloat ((if neg then [45] else []) ++ ip ++ frac ++ expo), r2)
      end
  end.

(** [s] starts with the ASCII word [w]: what follows it. *)
Fixpoint strip_prefix (w s : pystr) : option pystr :=
  match w, s with
  | [], _ => Some s
  | a :: w', b :: s' => if a =? b then strip_prefix w' s' else None
  | _ :: _, [] => None
  end.

Section Scanner.
(** The scanner the containers call back for their elements. *)
Variable scan : pystr -> outcome (pyval * pystr).

(** The element loop of [_parse_array]; [s] is at the start of a value.
    Every round consumes input, so [fuel] above the length of [s] is never
    used up. *)
Fixpoint parse_array_loop (fuel : nat) (s : pystr) (acc : list pyval)
  : outcome (pyval * pystr) :=
  match fuel with
  | O => Raises (json_error "Expecting value")
  | S fuel' =>
      match scan s with
      | Raises e => Raises e
      | Returns (v, r) =>
          match skip_ws r with
          | c :: r' =>
              if c =? 93 then Returns (PList (rev (v :: acc)), r')
              else if c =? 44 then parse_array_loop fuel' (skip_ws r') (v :: acc)
              else Raises (json_error "Expecting ',' delimiter")
          | [] => Raises (json_error "Expecting ',' delimiter")
          end
      end
  end.

(** [_parse_array], called just after the opening bracket. *)
Definition parse_array (s : pystr) : outcome (pyval * pystr) :=
  match skip_ws s with
  | c :: r =>
      if c =? 93 then Returns (PList [], r)
      else parse_array_loop (S (List.length s)) (skip_ws s) []
  | [] => parse_array_loop (S (List.length s)) [] []
  end.

(** The member loop of [_parse_object]; [s] is at the start of a key.
    A repeated key overwrites the earlier value ([PyDict_SetItem]). *)
Fixpoint parse_object_loop (fuel : nat) (s : pystr) (acc : pydict)
  : outcome (pyval * pystr) :=
  match fuel with
  | O => Raises (json_error "Expecting value")
  | S fuel' =>
      match s with
      | q :: s1 =>
          if q =? 34 then
            match scanstring s1 [] with
            | Raises e => Raises e
            | Returns (key, r) =>
                match skip_ws r with
                | colon :: r1 =>
                    if colon =? 58 then
                      match scan (skip_ws r1) with
                      | Raises e => Raises e
                      | Returns (v, r2) =>
                          match skip_ws r2 with
                          | c :: r3 =>
                              if c =? 125
                              then Returns (PDict (dict_set acc key v), r3)
                              else if c =? 44
                              then parse_object_loop fuel' (skip_ws r3)
                                     (dict_set acc key v)
                              else Raises (json_error "Expecting ',' delimiter")
                          | [] => Raises (json_error "Expecting ',' delimiter")
                          end
                      end
                    else Raises (json_error "Expecting ':' delimiter")
                | [] => Raises (json_error "Expecting ':' delimiter")
                end
            end
          else Raises (json_error "Expecting property name enclosed in double quotes")
      | [] => Raises (json_error "Expecting property name enclosed in double quotes")
      end
  end.

(** [_parse_object], called just after the opening brace. *)
Definition parse_object (s : pystr) : outcome (pyval * pystr) :=
  match skip_ws s with
  | c :: r =>
      if c =? 125 then Returns (PDict [], r)
      else parse_object_loop (S (List.length s)) (skip_ws s) []
  | [] => parse_object_loop (S (List.length s)) [] []
  end.
End Scanner.

Definition recursion_error : exn :=
  mkExn RecursionError
    (py "maximum recursion depth exceeded while decoding a JSON object from a unicode string").

(** The literals tried when the first character names none of the other
    cases, before falling through to [match_number]. *)
Definition scan_constant (s : pystr) : option (pyval * pystr) :=
  match strip_prefix (py "null") s with
  | Some r => Some (PNone, r)
  | None =>
  match strip_prefix (py "true") s with
  | Some r => Some (PBool true, r)
  | None =>
  match strip_prefix (py "false") s with
  | Some r => Some (PBool false, r)
  | None =>
  match strip_prefix (py "NaN") s with
  | Some r => Some (PFloat (py "nan"), r)
  | None =>
  match strip_prefix (py "Infinity") s with
  | Some r => Some (PFloat (py "inf"), r)
  | None =>
  match strip_prefix (py "-Infinity") s with
  | Some r => Some (PFloat (py "-inf"), r)
  | None => None
  end end end end end end.

(** [scan_once]: one JSON value at the start of [s].  Each nested array or
    object enters one recursive call; [depth] is how many the interpreter
    still allows. *)
Fixpoint scan_once (depth : nat) (s : pystr) {struct depth} : outcome (pyval * pystr) :=
  match s with
  | [] => Raises (json_error "Expecting value")
  | c :: t =>
      if c =? 34 then
        match scanstring t [] with
        | Returns (str, r) => Returns (PStr str, r)
        | Raises e => Raises e
        end
      else if c =? 123 then
        match depth with
        | O => Raises recursion_error
        | S d => parse_object (scan_once d) t
        end
      else if c =? 91 then
        match depth with
        | O => Raises recursion_error
        | S d => parse_array (scan_once d) t
        end
      else
        match scan_constant s with
        | Some res => Returns res
        | None =>
            match match_number s with
            | Some res => Returns res
            | None => Raises (json_error "Expecting value")
            end
        end
  end.

(** [json.loads(s)] for a [str]: no byte-order mark, one value between
    optional whitespace, nothing after it. *)
Definition json_loads (depth : nat) (s : pystr) : outcome pyval :=
  match strip_prefix [65279] s with
  | Some _ => Raises (json_error "Unexpected UTF-8 BOM (decode using utf-8-sig)")
  | None =>
      match scan_once depth (skip_ws s) with
      | Raises e => Raises e
      | Returns (v, r) =>
          match skip_ws r with
          | [] => Returns v
          | _ :: _ => Raises (json_error "Extra data")
          end
      end
  end.

(** A scanner that returns has read at least one character. *)
Definition consuming (scan : pystr -> outcome (pyval * pystr)) : Prop :=
  forall s v r, scan s = Returns (v, r) -> (List.length r < List.length s)%nat.

(** ** [re.search(r'\{.*\}', content, re.DOTALL)] *)

(** The suffix that starts at the first opening brace. *)
Fixpoint from_first_open (s : pystr) : option pystr :=
  match s with
  | [] => None
  | c :: t => if c =? 123 then Some s else from_first_open t
  end.

(** The prefix that ends at the last closing brace. *)
Fixpoint upto_last_close (s : pystr) : option pystr :=
  match s with
  | [] => None
  | c :: t =>
      match upto_last_close t with
      | Some p => Some (c :: p)
      | None => if c =? 125 then Some [c] else None
      end
  end.

(** The leftmost match of a brace, any characters (newlines too, greedy)
    and a brace: [json_match.group()], or [None] without a match. *)
Definition re_search_braces (content : pystr) : option pystr :=
  match from_first_open content with
  | None => None
  | Some m => upto_last_close m
  end.

(** ** [datetime.utcnow().isoformat()] *)

Record datetime : Type := mkDatetime {
  year : N; month : N; day : N;
  hour : N; minute : N; second : N; microsecond : N
}.

(** The character of the last decimal digit of [n]. *)
Definition digit_char (n : N) : N := 48 + n mod 10.

(** The [width] low decimal digits of [n], most significant first: what
    the zero-padded conversion writes for a field within its range. *)
Fixpoint zero_padded (width : nat) (n : N) : pystr :=
  match width with
  | O => []
  | S w => zero_padded w (n / 10) ++ [digit_char n]
  end.

(** [datetime.isoformat()] of a naive datetime: the microseconds are
    written only when they are not zero. *)
Definition isoformat (dt : datetime) : pystr :=
  zero_padded 4 (year dt) ++ py "-" ++ zero_padded 2 (month dt) ++ py "-"
  ++ zero_padded 2 (day dt) ++ py "T" ++ zero_padded 2 (hour dt) ++ py ":"
  ++ zero_padded 2 (minute dt) ++ py ":" ++ zero_padded 2 (second dt)
  ++ (if microsecond dt =? 0 then [] else py "." ++ zero_padded 6 (microsecond dt)).

(** The shape of an ISO-8601 timestamp in UTC: four digits of year, two of
    month, two of day, a T, two digits each of hour, minute and second,
    optionally a dot and six digits of microseconds, and a final Z. *)
Definition is_iso8601_utc_z (s : pystr) : bool :=
  match s with
  | y1 :: y2 :: y3 :: y4 :: a :: m1 :: m2 :: b :: d1 :: d2 :: t
    :: h1 :: h2 :: c1 :: n1 :: n2 :: c2 :: s1 :: s2 :: rest =>
      forallb is_digit [y1; y2; y3; y4; m1; m2; d1; d2; h1; h2; n1; n2; s1; s2]
      && (a =? 45) && (b =? 45) && (t =? 84) && (c1 =? 58) && (c2 =? 58)
      && match rest with
         | [z] => z =? 90
         | [dot; f1; f2; f3; f4; f5; f6; z] =>
             (dot =? 46) && forallb is_digit [f1; f2; f3; f4; f5; f6] && (z =? 90)
         | _ => false
         end
  | _ => false
  end.

(** ** llm.py *)

(** What [model.generate_content] is called with. *)
Record GenRequest : Type := mkGenRequest {
  req_model : pystr;
  req_prompt : pystr;
  req_temperature : Q;
  req_candidate_count : Z
}.

(** What the function reads from outside itself: the installed packages,
    the process environment and the [.env] file, the interpreter's float,
    formatting and serialisation primitives, the remote service and the
    clock. *)
Record World : Type := mkWorld {
  (** [import google.generativeai] succeeds *)
  genai_importable : bool;
  (** [os.environ["GEMINI_API_KEY"]] before [load_dotenv] *)
  environ_GEMINI_API_KEY : option pystr;
  (** the entry of the [.env] file *)
  dotenv_GEMINI_API_KEY : option pystr;
  (** [round(float(x) * 100)] *)
  round_percent : pyval -> outcome pyval;
  (** how an f-string renders a value *)
  format_value : pyval -> pystr;
  (** [json.dumps] *)
  json_dumps : pyval -> outcome pystr;
  (** how deep [json.loads] may still recurse *)
  recursion_limit : nat;
  (** [model.generate_content(prompt, generation_config=...)] followed by
      [response.text]: the reply text, or the exception either raises *)
  generate_content : GenRequest -> outcome pystr;
  (** [datetime.utcnow()] *)
  utcnow : datetime
}.

(** Computations that may raise and that record every request sent to the
    remote service. *)
Definition Py (A : Type) : Type := list GenRequest -> outcome A * list GenRequest.

Definition ret {A} (a : A) : Py A := fun sent => (Returns a, sent).

Definition bind {A B} (c : Py A) (k : A -> Py B) : Py B :=
  fun sent =>
    match c sent with
    | (Returns a, sent') => k a sent'
    | (Raises e, sent') => (Raises e, sent')
    end.

Definition lift {A} (o : outcome A) : Py A := fun sent => (o, sent).

(** [try: body / except Exception as e: handler(e)] *)
Definition try_except {A} (body : Py A) (handler : exn -> Py A) : Py A :=
  fun sent =>
    match body sent with
    | (Returns a, sent') => (Returns a, sent')
    | (Raises e, sent') => handler e sent'
    end.

(** One network round trip: the request is recorded, then answered. *)
Definition call_service (w : World) (req : GenRequest) : Py pystr :=
  fun sent => (generate_content w req, sent ++ [req]).

Declare Scope py_scope.
Delimit Scope py_scope with py.
Notation "x <- c ;; k" := (bind c (fun x => k))
  (at level 61, c at next level, right associativity) : py_scope.

(** [load_dotenv(override=False)] then [os.getenv("GEMINI_API_KEY")]: a
    variable already in the environment wins over the file. *)
Definition getenv_GEMINI_API_KEY (w : World) : option pystr :=
  match environ_GEMINI_API_KEY w with
  | Some v => Some v
  | None => dotenv_GEMINI_API_KEY w
  end.

Definition nl : pystr := [10].
Definition quote : pystr := [34].

(** [_get_gemini_client()]: the configured client, here the key it was
    configured with. *)
Definition _get_gemini_client (w : World) : outcome pystr :=
  if negb (genai_importable w) then
    Raises (mkExn RuntimeError
              (py "google-generativeai package is required. Install dependencies from requirements.txt"))
  else
    match getenv_GEMINI_API_KEY w with
    | None | Some [] =>
        Raises (mkExn RuntimeError
                  (py "GEMINI_API_KEY is not set. Export it or add to a .env file."))
    | Some api_key => Returns api_key
    end.

Definition ty (name : string) : pyval := PDict [(py "type", PStr (py name))].

Definition obj (props : pydict) : pyval :=
  PDict [(py "type", PStr (py "object")); (py "properties", PDict props)].

Definition arr (items : pyval) : pyval :=
  PDict [(py "type", PStr (py "array")); (py "items", items)].

(** The [format_requirements] literal of [user_payload]. *)
Definition format_requirements : pyval :=
  obj [ (py "ml_model_prediction",
          obj [ (py "name", ty "string"); (py "confidence_percent", ty "number");
                (py "npk", ty "string") ]);
        (py "soil_condition",
          obj [ (py "ph_status", ty "string"); (py "moisture_status", ty "string");
                (py "nutrient_deficiencies", arr (ty "string"));
                (py "recommendations", arr (ty "string")) ]);
        (py "primary_fertilizer",
          obj [ (py "name", ty "string"); (py "amount_kg", ty "number");
                (py "reason", ty "string"); (py "application_method", ty "string") ]);
        (py "secondary_fertilizer",
          obj [ (py "name", ty "string"); (py "amount_kg", ty "number");
                (py "reason", ty "string"); (py "application_method", ty "string") ]);
        (py "organic_alternatives",
          arr (obj [ (py "name", ty "string"); (py "amount_kg", ty "number");
                     (py "reason", ty "string"); (py "timing", ty "string") ]));
        (py "application_timing",
          obj [ (py "primary", ty "string"); (py "secondary", ty "string");
                (py "organics", ty "string") ]);
        (py "cost_estimate",
          obj [ (py "primary", ty "number"); (py "secondary", ty "number");
                (py "organics", ty "number"); (py "total", ty "number");
                (py "notes", ty "string") ]) ].

Definition system_prompt : pystr :=
  py "You are an agronomy assistant. Convert soil/crop + ML outputs into a clear," ++ nl
  ++ py "practical fertilizer recommendation. Return only JSON and keep values realistic." ++ nl
  ++ py "When estimating amounts and costs, scale by field size.".

(** [try: body / except Exception: handler] around a computation that
    sends nothing. *)
Definition try_outcome {A} (body : outcome A) (handler : exn -> outcome A) : outcome A :=
  match body with
  | Returns a => Returns a
  | Raises e => handler e
  end.

(** The response-parsing step (the inner [try] of
    [generate_recommendation_report]): the text as JSON; else the text from
    its first opening to its last closing brace as JSON; else the text
    wrapped under the key [raw]. *)
Definition parse_response (depth : nat) (content : pystr) : outcome pyval :=
  try_outcome (json_loads depth content)
    (fun _ =>
       match re_search_braces content with
       | Some group =>
           try_outcome (json_loads depth group)
             (fun _ => Returns (PDict [(py "raw", PStr content)]))
       | None => Returns (PDict [(py "raw", PStr content)])
       end).

Local Open Scope py_scope.

Definition generate_recommendation_report
    (w : World) (base_inputs predictions confidences : pydict) : Py pyval :=
  genai <- lift (_get_gemini_client w) ;;
  let primary_conf := dict_get_default confidences (py "Primary_Fertilizer") PNone in
  primary_conf_pct <-
    match primary_conf with
    | PNone => ret PNone
    | _ => lift (round_percent w primary_conf)
    end ;;
  let sowing_date := dict_get_default base_inputs (py "Sowing_Date") PNone in
  let field_size := dict_get_default base_inputs (py "Field_Size") PNone in
  let field_unit := dict_get_default base_inputs (py "Field_Unit") (PStr (py "hectares")) in
  let user_payload :=
    PDict [ (py "inputs", PDict base_inputs);
            (py "predictions", PDict predictions);
            (py "primary_confidence_percent", primary_conf_pct);
            (py "format_requirements", format_requirements);
            (py "notes",
              PStr (py "- Use predicted fertilizers/statuses as anchors." ++ nl
                    ++ py "- If pH_Amendment is 'None', reflect that." ++ nl
                    ++ py "- Sowing date: " ++ format_value w sowing_date
                    ++ py ", field size: " ++ format_value w field_size
                    ++ py " " ++ format_value w field_unit ++ py "." ++ nl
                    ++ py "- Provide concise, farmer-friendly text.")) ] in
  payload_json <- lift (json_dumps w user_payload) ;;
  let full_prompt :=
    system_prompt ++ nl ++ nl
    ++ py "Generate a structured agronomy report as JSON (no extra text)." ++ nl
    ++ payload_json in
  let request := mkGenRequest (py "gemini-1.5-flash") full_prompt (4 # 10) 1 in
  data <-
    try_except
      (content <- call_service w request ;;
       lift (parse_response (recursion_limit w) content))
      (fun e =>
         ret (PDict [(py "error",
                      PStr (py "Failed to generate recommendation: " ++ exc_msg e))])) ;;
  let meta :=
    PDict [ (py "generated_at", PStr (isoformat (utcnow w) ++ py "Z"));
            (py "inputs", PDict base_inputs);
            (py "predictions", PDict predictions);
            (py "confidences", PDict confidences) ] in
  data' <- lift (setitem data (py "_meta") meta) ;;
  ret data'.

Local Close Scope py_scope.

(** A call from a caller that has sent nothing yet: what it gets back and
    the requests that went out. *)
Definition run {A} (c : Py A) : outcome A * list GenRequest := c [].

(** *** Names for the parts of a report *)

(** The [_meta] block attached to every report. *)
Definition meta_block (w : World) (base_inputs predictions confidences : pydict) : pyval :=
  PDict [ (py "generated_at", PStr (isoformat (utcnow w) ++ py "Z"));
          (py "inputs", PDict base_inputs);
          (py "predictions", PDict predictions);
          (py "confidences", PDict confidences) ].

(** The object built when the service call raises [e]. *)
Definition error_object (e : exn) : pyval :=
  PDict [(py "error", PStr (py "Failed to generate recommendation: " ++ exc_msg e))].

(** What the function does with the reply of the service, once the call
    has been made: the outer [try] and the attachment of [_meta]. *)
Definition report_of_reply (w : World) (base_inputs predictions confidences : pydict)
    (reply : outcome pystr) : outcome pyval :=
  let data :=
    match reply with
    | Returns content =>
        match parse_response (recursion_limit w) content with
        | Returns data => data
        | Raises e => error_object e
        end
    | Raises e => error_object e
    end in
  setitem data (py "_meta") (meta_block w base_inputs predictions confidences).

(** *** Worlds to run the function in *)

(** The package is installed, the [.env] file has no entry, and the
    interpreter's primitives and the service answer as given. *)
Definition sample_world (api_key : option pystr) (reply : outcome pystr) : World :=
  mkWorld true api_key None
    (fun _ => Returns (PInt 87)) (fun _ => py "2024-06-01") (fun _ => Returns (py "{}"))
    1000 (fun _ => reply) (mkDatetime 2024 5 17 9 30 0 0).

Definition sample_inputs : pydict :=
  [(py "Sowing_Date", PStr (py "2024-06-01")); (py "Field_Size", PInt 2)].

Definition sample_predictions : pydict :=
  [(py "Primary_Fertilizer", PStr (py "Urea")); (py "pH_Amendment", PStr (py "None"))].

Definition sample_confidences : pydict :=
  [(py "Primary_Fertilizer", PFloat (py "0.873"))].

(** A failure of the remote call. *)
Definition timeout_error : exn :=
  mkExn (OtherException (py "DeadlineExceeded")) (py "504 Deadline Exceeded").

(** What the service raises for a key it does not accept. *)
Definition invalid_key_error : exn :=
  mkExn (OtherException (py "InvalidArgument"))
    (py "400 API key not valid. Please pass a valid API key.").

(** The request that goes out in a [sample_world]. *)
Definition sample_request : GenRequest :=
  mkGenRequest (py "gemini-1.5-flash")
    (system_prompt ++ nl ++ nl
     ++ py "Generate a structured agronomy report as JSON (no extra text)."
     ++ nl ++ py "{}")
    (4 # 10) 1.

(** *** The steps before the request *)

(** [primary_conf_pct]: [None] without a confidence for the primary
    fertilizer, else that confidence as a rounded percentage. *)
Definition primary_confidence_percent (w : World) (confidences : pydict) : outcome pyval :=
  match dict_get_default confidences (py "Primary_Fertilizer") PNone with
  | PNone => Returns PNone
  | primary_conf => round_percent w primary_conf
  end.

(** The [notes] entry of the payload. *)
Definition payload_notes (w : World) (base_inputs : pydict) : pystr :=
  py "- Use predicted fertilizers/statuses as anchors." ++ nl
  ++ py "- If pH_Amendment is 'None', reflect that." ++ nl
  ++ py "- Sowing date: "
  ++ format_value w (dict_get_default base_inputs (py "Sowing_Date") PNone)
  ++ py ", field size: "
  ++ format_value w (dict_get_default base_inputs (py "Field_Size") PNone)
  ++ py " "
  ++ format_value w (dict_get_default base_inputs (py "Field_Unit") (PStr (py "hectares")))
  ++ py "." ++ nl
  ++ py "- Provide concise, farmer-friendly text.".

(** [user_payload], given the rounded percentage. *)
Definition user_payload (w : World) (base_inputs predictions : pydict)
    (primary_conf_pct : pyval) : pyval :=
  PDict [ (py "inputs", PDict base_inputs);
          (py "predictions", PDict predictions);
          (py "primary_confidence_percent", primary_conf_pct);
          (py "format_requirements", format_requirements);
          (py "notes", PStr (payload_notes w base_inputs)) ].

(** [full_prompt], given the serialised payload. *)
Definition full_prompt (payload_json : pystr) : pystr :=
  system_prompt ++ nl ++ nl
  ++ py "Generate a structured agronomy report as JSON (no extra text)." ++ nl
  ++ payload_json.

(** The request for a serialised payload: the flash model, temperature
    0.4 and one candidate. *)
Definition report_request (payload_json : pystr) : GenRequest :=
  mkGenRequest (py "gemini-1.5-flash") (full_prompt payload_json) (4 # 10) 1.

(** The same world with another rounding primitive. *)
Definition with_round_percent (w : World) (rp : pyval -> outcome pyval) : World :=
  mkWorld (genai_importable w) (environ_GEMINI_API_KEY w) (dotenv_GEMINI_API_KEY w)
    rp (format_value w) (json_dumps w) (recursion_limit w) (generate_content w)
    (utcnow w).

(** What holds of each alias entry besides [alias_entry_ok]: the key is
    its own lowercase form and the canonical name is trimmed. *)
Definition alias_entry_normal (ud : UnicodeData) (kv : pystr * pystr) : bool :=
  let (k, v) := kv in
  pystr_eqb (lower ud k) k && pystr_eqb (strip v) v && negb (pystr_eqb v []).

(** The key of an alias entry has ASCII characters only. *)
Definition alias_key_ascii (kv : pystr * pystr) : bool := forallb is_ascii (fst kv).

(** A [dict] value. *)
Definition is_dict (v : pyval) : bool :=
  match v with
  | PDict _ => true
  | _ => false
  end.

(** * Properties *)

(** ** Strings and dictionaries *)

Ltac nbool :=
  repeat match goal with
         | |- context [N.leb ?a ?b] => destruct (N.leb_spec a b); try lia
         | |- context [N.eqb ?a ?b] => destruct (N.eqb_spec a b); try lia
         end; simpl; try reflexivity; try lia.

Lemma pystr_eqb_eq (a b : pystr) : pystr_eqb a b = true <-> a = b.
Proof.
  revert b. induction a as [|x a IH]; intros [|y b]; simpl; split;
    try congruence; try reflexivity.
  - intros H. apply andb_true_iff in H. destruct H as [Hx Hab].
    apply N.eqb_eq in Hx. apply IH in Hab. congruence.
  - intros H. inversion H; subst. rewrite N.eqb_refl. simpl. now apply IH.
Qed.

Lemma pystr_eqb_refl (a : pystr) : pystr_eqb a a = true.
Proof. now apply pystr_eqb_eq. Qed.

Lemma dict_get_In {V} (d : list (pystr * V)) k v :
  dict_get d k = Some v -> In (k, v) d.
Proof.
  induction d as [|[k' v'] d IH]; simpl; [discriminate|].
  destruct (pystr_eqb k' k) eqn:E.
  - intros H. inversion H; subst. apply pystr_eqb_eq in E. subst. now left.
  - intros H. right. now apply IH.
Qed.

Lemma dict_get_set_same {V} (d : list (pystr * V)) k v :
  dict_get (dict_set d k v) k = Some v.
Proof.
  induction d as [|[k' v'] d IH]; simpl.
  - now rewrite pystr_eqb_refl.
  - destruct (pystr_eqb k' k) eqn:E; simpl; rewrite E; [reflexivity | exact IH].
Qed.

Lemma dict_get_set_other {V} (d : list (pystr * V)) k k' v :
  pystr_eqb k k' = false -> dict_get (dict_set d k v) k' = dict_get d k'.
Proof.
  intros Hk. induction d as [|[k0 v0] d IH]; simpl.
  - now rewrite Hk.
  - destruct (pystr_eqb k0 k) eqn:E; simpl.
    + apply pystr_eqb_eq in E. subst k0. now rewrite Hk.
    + now rewrite IH.
Qed.

(** ** Whitespace trimming and lowercasing *)

Lemma is_space_letter (c : N) : 65 <= c <= 122 -> is_space c = false.
Proof. intros H. unfold is_space. nbool. Qed.

Lemma lower_char_space (c : N) : is_space (lower_char c) = is_space c.
Proof.
  unfold lower_char.
  destruct ((65 <=? c) && (c <=? 90)) eqn:E; [|reflexivity].
  apply andb_true_iff in E. destruct E as [E1 E2].
  apply N.leb_le in E1, E2.
  rewrite !is_space_letter by lia. reflexivity.
Qed.

Lemma ascii_lower_length (s : pystr) : List.length (ascii_lower s) = List.length s.
Proof. apply length_map. Qed.

Lemma lstrip_ascii_lower (s : pystr) : lstrip (ascii_lower s) = ascii_lower (lstrip s).
Proof.
  induction s as [|c t IH]; simpl; [reflexivity|].
  rewrite lower_char_space. destruct (is_space c); [exact IH | reflexivity].
Qed.

Lemma rstrip_ascii_lower (s : pystr) : rstrip (ascii_lower s) = ascii_lower (rstrip s).
Proof.
  induction s as [|c t IH]; simpl; [reflexivity|].
  fold (ascii_lower t). rewrite IH, lower_char_space.
  destruct (rstrip t); simpl; [destruct (is_space c)|]; reflexivity.
Qed.


Lemma lower_char_ascii (c : N) : is_ascii (lower_char c) = is_ascii c.
Proof.
  unfold is_ascii, lower_char.
  destruct ((65 <=? c) && (c <=? 90)) eqn:E; [|reflexivity].
  apply andb_true_iff in E. destruct E as [E1 E2]. apply N.leb_le in E1, E2.
  destruct (N.ltb_spec (c + 32) 128), (N.ltb_spec c 128); try reflexivity; lia.
Qed.

Lemma ascii_lower_ascii (s : pystr) :
  forallb is_ascii (ascii_lower s) = forallb is_ascii s.
Proof.
  induction s as [|c t IH]; simpl; [reflexivity|].
  fold (ascii_lower t). now rewrite lower_char_ascii, IH.
Qed.

(** On ASCII text [str.lower()] is the ASCII lowercase, whatever the
    database holds. *)
Lemma lower_from_ascii (ud : UnicodeData) (s : pystr) :
  forallb is_ascii s = true ->
  forall before, lower_from ud before s = ascii_lower s.
Proof.
  induction s as [|c t IH]; simpl; intros H before; [reflexivity|].
  apply andb_true_iff in H. destruct H as [Hc Ht].
  rewrite (IH Ht). unfold to_lower_full. rewrite Hc.
  destruct (N.eqb_spec c 931) as [->|_]; [discriminate Hc | reflexivity].
Qed.

Lemma lower_ascii (ud : UnicodeData) (s : pystr) :
  forallb is_ascii s = true -> lower ud s = ascii_lower s.
Proof. intros H. now apply lower_from_ascii. Qed.




Lemma lstrip_length (s : pystr) : (List.length (lstrip s) <= List.length s)%nat.
Proof.
  induction s as [|c t IH]; simpl; [lia|].
  destruct (is_space c); simpl; lia.
Qed.

Lemma lstrip_all_space (s : pystr) : forallb is_space s = true -> lstrip s = [].
Proof.
  induction s as [|c t IH]; simpl; [reflexivity|].
  intros H. apply andb_true_iff in H. destruct H as [Hc Ht].
  rewrite Hc. now apply IH.
Qed.

Lemma rstrip_all_space (s : pystr) : forallb is_space s = true -> rstrip s = [].
Proof.
  induction s as [|c t IH]; simpl; [reflexivity|].
  intros H. apply andb_true_iff in H. destruct H as [Hc Ht].
  rewrite (IH Ht), Hc. reflexivity.
Qed.

Lemma strip_all_space (s : pystr) : forallb is_space s = true -> strip s = [].
Proof. intros H. unfold strip. now rewrite lstrip_all_space. Qed.

Lemma lstrip_same_length (s : pystr) :
  List.length (lstrip s) = List.length s -> lstrip s = s.
Proof.
  destruct s as [|c t]; simpl; [reflexivity|].
  destruct (is_space c); [|reflexivity].
  intros H. pose proof (lstrip_length t). lia.
Qed.

Lemma rstrip_same_length (s : pystr) :
  List.length (rstrip s) = List.length s -> rstrip s = s.
Proof.
  induction s as [|c t IH]; simpl; [reflexivity|].
  destruct (rstrip t) as [|x t'] eqn:E.
  - destruct (is_space c); simpl; intros H; [discriminate|].
    destruct t; [reflexivity | discriminate].
  - simpl. intros H. f_equal. apply IH. simpl. lia.
Qed.

Lemma lstrip_idem (s : pystr) : lstrip (lstrip s) = lstrip s.
Proof.
  induction s as [|c t IH]; simpl; [reflexivity|].
  destruct (is_space c) eqn:E; [exact IH|]. simpl. now rewrite E.
Qed.

Lemma rstrip_idem (s : pystr) : rstrip (rstrip s) = rstrip s.
Proof.
  induction s as [|c t IH]; simpl; [reflexivity|].
  destruct (rstrip t) as [|x t'] eqn:E.
  - destruct (is_space c) eqn:Ec; simpl; [reflexivity | now rewrite Ec].
  - change (rstrip (c :: x :: t')) with
      (match rstrip (x :: t') with
       | [] => if is_space c then [] else [c]
       | y :: t'' => c :: y :: t''
       end).
    rewrite IH. reflexivity.
Qed.

Lemma lstrip_rstrip_fixed (s : pystr) : lstrip s = s -> lstrip (rstrip s) = rstrip s.
Proof.
  destruct s as [|c t]; [reflexivity|].
  intros H. simpl in H. destruct (is_space c) eqn:Ec.
  - pose proof (lstrip_length t) as L. rewrite H in L. simpl in L. lia.
  - simpl. destruct (rstrip t); rewrite ?Ec; simpl; now rewrite Ec.
Qed.

Lemma strip_idem (s : pystr) : strip (strip s) = strip s.
Proof.
  unfold strip.
  rewrite (lstrip_rstrip_fixed (lstrip s)) by apply lstrip_idem.
  apply rstrip_idem.
Qed.

Lemma lstrip_app_space (l x : pystr) :
  forallb is_space l = true -> lstrip (l ++ x) = lstrip x.
Proof.
  induction l as [|c l IH]; simpl; [reflexivity|].
  intros H. apply andb_true_iff in H. destruct H as [Hc Hl].
  rewrite Hc. now apply IH.
Qed.

Lemma rstrip_app_space (m r : pystr) :
  forallb is_space r = true -> rstrip (m ++ r) = rstrip m.
Proof.
  intros Hr. induction m as [|c m IH]; simpl.
  - now apply rstrip_all_space.
  - now rewrite IH.
Qed.

Lemma lstrip_app_fixed (m r : pystr) :
  m <> [] -> lstrip m = m -> lstrip (m ++ r) = m ++ r.
Proof.
  destruct m as [|c t]; [congruence|]. intros _ H. simpl in *.
  destruct (is_space c); [|reflexivity].
  pose proof (lstrip_length t) as L. rewrite H in L. simpl in L. lia.
Qed.

(** A name that is trimmed already, between two runs of whitespace. *)
Lemma strip_padded (l m r : pystr) :
  forallb is_space l = true -> forallb is_space r = true ->
  m <> [] -> lstrip m = m -> rstrip m = m ->
  strip (l ++ m ++ r) = m.
Proof.
  intros Hl Hr Hm Hlm Hrm. unfold strip.
  rewrite lstrip_app_space by exact Hl.
  rewrite lstrip_app_fixed by assumption.
  rewrite rstrip_app_space by exact Hr. exact Hrm.
Qed.

(** Trimmedness is decided on the lowercase form. *)
Lemma trimmed_of_ascii_lower (m k : pystr) :
  ascii_lower m = k -> k <> [] -> lstrip k = k -> rstrip k = k ->
  m <> [] /\ lstrip m = m /\ rstrip m = m.
Proof.
  intros <- Hk Hl Hr. repeat split.
  - intros ->. now apply Hk.
  - apply lstrip_same_length.
    rewrite <- (ascii_lower_length (lstrip m)), <- lstrip_ascii_lower, Hl.
    apply ascii_lower_length.
  - apply rstrip_same_length.
    rewrite <- (ascii_lower_length (rstrip m)), <- rstrip_ascii_lower, Hr.
    apply ascii_lower_length.
Qed.

(** ** The alias table *)

Lemma alias_table_ok (ud : UnicodeData) : forallb (alias_entry_ok ud) FERT_ALIAS = true.
Proof. vm_compute. reflexivity. Qed.

Lemma alias_keys_ascii : forallb alias_key_ascii FERT_ALIAS = true.
Proof. vm_compute. reflexivity. Qed.

Lemma alias_key_is_ascii (k v : pystr) :
  In (k, v) FERT_ALIAS -> forallb is_ascii k = true.
Proof.
  intros Hin. exact (proj1 (forallb_forall _ _) alias_keys_ascii _ Hin).
Qed.

Lemma alias_entry (ud : UnicodeData) (k v : pystr) :
  In (k, v) FERT_ALIAS ->
  dict_get FERT_ALIAS k = Some v /\ k <> [] /\ lstrip k = k /\ rstrip k = k
  /\ normalize_name ud (Some v) = Some v.
Proof.
  intros Hin.
  pose proof (proj1 (forallb_forall _ _) (alias_table_ok ud) _ Hin) as H.
  unfold alias_entry_ok in H.
  repeat (apply andb_true_iff in H; destruct H as [H ?]).
  repeat split.
  - destruct (dict_get FERT_ALIAS k); simpl in H; [|discriminate].
    apply pystr_eqb_eq in H. now subst.
  - intros ->. discriminate.
  - now apply pystr_eqb_eq.
  - now apply pystr_eqb_eq.
  - destruct (normalize_name ud (Some v)); simpl in *; [|discriminate].
    f_equal. now apply pystr_eqb_eq.
Qed.

Lemma normalize_name_nonempty (ud : UnicodeData) (s : pystr) :
  s <> [] ->
  normalize_name ud (Some s)
  = Some (dict_get_default FERT_ALIAS (lower ud (strip s)) (strip s)).
Proof. destruct s; [congruence | reflexivity]. Qed.

(** ** [normalize_name] *)

(** C6, as stated, fails on a whitespace-only name: a single space is
    whitespace only, yet [normalize_name] returns the empty string for it
    and not [None]. *)
Lemma normalize_name_blank_not_none :
  forallb is_space (py " ") = true
  /\ normalize_name sample_unicode (Some (py " ")) = Some []
  /\ normalize_name sample_unicode (Some (py " ")) <> None.
Proof.
  split; [vm_compute; reflexivity|].
  split; [vm_compute; reflexivity | discriminate].
Qed.

(** C6, amended: [normalize_name] returns [None] for [None] and for the
    empty string; for every non-empty whitespace-only string it returns the
    empty string. *)
Theorem normalize_name_none_cases (ud : UnicodeData) :
  normalize_name ud None = None
  /\ normalize_name ud (Some []) = None
  /\ forall s, s <> [] -> forallb is_space s = true ->
               normalize_name ud (Some s) = Some [].
Proof.
  repeat split. intros s Hs Hws.
  rewrite normalize_name_nonempty by exact Hs.
  rewrite strip_all_space by exact Hws. reflexivity.
Qed.

Lemma normalize_name_none_cases_witness :
  normalize_name sample_unicode (Some (py "   ")) = Some [].
Proof.
  apply (proj2 (proj2 (normalize_name_none_cases sample_unicode)) (py "   ")).
  - discriminate.
  - vm_compute. reflexivity.
Defined.

(** C7: for every non-empty name, [normalize_name] trims it, lowercases it
    and looks the result up in the alias table, returning the canonical
    value when found and the trimmed original otherwise.  Every name whose
    trimmed lowercase form is an alias key gives the canonical value of
    that key; so does, in particular, every spelling of the key in another
    casing of its letters, between any runs of whitespace. *)
Theorem normalize_name_alias_lookup (ud : UnicodeData) :
  (forall s, s <> [] ->
     normalize_name ud (Some s)
     = Some match dict_get FERT_ALIAS (lower ud (strip s)) with
            | Some canon => canon
            | None => strip s
            end)
  /\ (forall k v, In (k, v) FERT_ALIAS ->
      forall s, s <> [] -> lower ud (strip s) = k ->
                normalize_name ud (Some s) = Some v)
  /\ (forall k v, In (k, v) FERT_ALIAS ->
      forall l m r,
        forallb is_space l = true -> forallb is_space r = true ->
        ascii_lower m = k ->
        normalize_name ud (Some (l ++ m ++ r)) = Some v)
  /\ (forall s, s <> [] -> dict_get FERT_ALIAS (lower ud (strip s)) = None ->
        normalize_name ud (Some s) = Some (strip s))
  /\ normalize_name ud (Some (py " MOP ")) = Some (py "MOP")
  /\ normalize_name ud (Some (py "Muriate of Potash")) = Some (py "MOP").
Proof.
  split; [|split; [|split; [|split; [|split]]]].
  - intros s Hs. now rewrite normalize_name_nonempty.
  - intros k v Hin s Hs Hkey.
    destruct (alias_entry ud k v Hin) as (Hget & _).
    rewrite normalize_name_nonempty by exact Hs.
    unfold dict_get_default. now rewrite Hkey, Hget.
  - intros k v Hin l m r Hl Hr Hm.
    destruct (alias_entry ud k v Hin) as (Hget & Hk & Hlk & Hrk & _).
    destruct (trimmed_of_ascii_lower m k Hm Hk Hlk Hrk) as (Hne & Hlm & Hrm).
    assert (Hascii : forallb is_ascii m = true).
    { rewrite <- ascii_lower_ascii, Hm. now apply alias_key_is_ascii with v. }
    rewrite normalize_name_nonempty.
    + rewrite strip_padded by assumption.
      unfold dict_get_default. now rewrite lower_ascii, Hm, Hget.
    + intros E. apply app_eq_nil in E. destruct E as [_ E].
      apply app_eq_nil in E. destruct E as [E _]. now apply Hne.
  - intros s Hs Hnone. rewrite normalize_name_nonempty by exact Hs.
    unfold dict_get_default. now rewrite Hnone.
  - vm_compute. reflexivity.
  - vm_compute. reflexivity.
Qed.

Lemma normalize_name_alias_lookup_witness :
  normalize_name sample_unicode (Some (py "  Neem CAKE ")) = Some (py "Neem Cake")
  /\ normalize_name sample_unicode (Some (py " neem ca" ++ [8490] ++ py "e"))
     = Some (py "Neem Cake")
  /\ normalize_name sample_unicode (Some (py " Gypsum  ")) = Some (py "Gypsum").
Proof.
  destruct (normalize_name_alias_lookup sample_unicode)
    as (_ & Hkey & Hcase & Hmiss & _).
  split; [|split].
  - apply (Hcase (py "neem cake") (py "Neem Cake")) with
      (l := py "  ") (m := py "Neem CAKE") (r := py " ").
    + vm_compute. tauto.
    + vm_compute. reflexivity.
    + vm_compute. reflexivity.
    + vm_compute. reflexivity.
  - apply (Hkey (py "neem cake") (py "Neem Cake")).
    + vm_compute. tauto.
    + discriminate.
    + vm_compute. reflexivity.
  - apply (Hmiss (py " Gypsum  ")).
    + discriminate.
    + vm_compute. reflexivity.
Defined.

(** C8, as stated, fails on a whitespace-only name: a single space is not
    the empty string, it normalises to the empty string, and the empty
    string normalises to [None]. *)
Lemma normalize_name_blank_not_idempotent :
  py " " <> []
  /\ normalize_name sample_unicode (Some (py " ")) = Some []
  /\ normalize_name sample_unicode (normalize_name sample_unicode (Some (py " "))) = None
  /\ normalize_name sample_unicode (normalize_name sample_unicode (Some (py " ")))
     <> normalize_name sample_unicode (Some (py " ")).
Proof.
  split; [discriminate|].
  split; [vm_compute; reflexivity|].
  split; [vm_compute; reflexivity | discriminate].
Qed.

(** C8, amended: for every string with a non-whitespace character (one
    whose trimmed form is not empty), normalising twice is the same as
    normalising once; a canonical name of the table is returned unchanged,
    and such a string that matches no alias is returned trimmed, never
    rejected. *)
Theorem normalize_name_idempotent (ud : UnicodeData) :
  (forall s, strip s <> [] ->
     normalize_name ud (normalize_name ud (Some s)) = normalize_name ud (Some s))
  /\ (forall k v, In (k, v) FERT_ALIAS -> normalize_name ud (Some v) = Some v)
  /\ (forall s, strip s <> [] ->
        dict_get FERT_ALIAS (lower ud (strip s)) = None ->
        normalize_name ud (Some s) = Some (strip s)
        /\ normalize_name ud (Some (strip s)) = Some (strip s)).
Proof.
  assert (Hmiss : forall s, strip s <> [] ->
            dict_get FERT_ALIAS (lower ud (strip s)) = None ->
            normalize_name ud (Some s) = Some (strip s)
            /\ normalize_name ud (Some (strip s)) = Some (strip s)).
  { intros s Hs Hnone.
    assert (Hne : s <> []) by (intros ->; now apply Hs).
    split; rewrite normalize_name_nonempty by assumption;
      unfold dict_get_default; rewrite ?strip_idem, Hnone; reflexivity. }
  split; [|split].
  - intros s Hs.
    assert (Hne : s <> []) by (intros ->; now apply Hs).
    destruct (dict_get FERT_ALIAS (lower ud (strip s))) as [v|] eqn:E.
    + rewrite normalize_name_nonempty by exact Hne.
      unfold dict_get_default. rewrite E.
      apply dict_get_In in E. now apply (alias_entry ud) in E.
    + destruct (Hmiss s Hs E) as [H1 H2]. now rewrite H1, H2.
  - intros k v Hin. now apply (alias_entry ud) in Hin.
  - exact Hmiss.
Qed.

Lemma normalize_name_idempotent_witness :
  normalize_name sample_unicode
    (normalize_name sample_unicode (Some (py " neem ca" ++ [8490] ++ py "e ")))
  = normalize_name sample_unicode (Some (py " neem ca" ++ [8490] ++ py "e ")).
Proof.
  apply (proj1 (normalize_name_idempotent sample_unicode)
           (py " neem ca" ++ [8490] ++ py "e ")).
  vm_compute. discriminate.
Defined.

(** ** [live_price_provider] *)

(** C10: whatever the name and the region, [live_price_provider] returns the
    unavailable value [None]; the function is total, the normalisation it
    runs first having a result for every name. *)
Theorem live_price_provider_unavailable :
  forall (ud : UnicodeData) (name : pystr) (region : option pystr),
    live_price_provider ud name region = None.
Proof. intros ud name region. reflexivity. Qed.

(** ** The brace search *)

Lemma from_first_open_app (pre t : pystr) :
  ~ In 123 pre -> from_first_open (pre ++ 123 :: t) = Some (123 :: t).
Proof.
  induction pre as [|c pre IH]; simpl; intros H; [reflexivity|].
  destruct (N.eqb_spec c 123) as [->|_]; [exfalso; apply H; now left|].
  apply IH. intros Hin. apply H. now right.
Qed.

Lemma from_first_open_spec (s m : pystr) :
  from_first_open s = Some m ->
  exists pre t, s = pre ++ m /\ m = 123 :: t /\ ~ In 123 pre.
Proof.
  induction s as [|c s IH]; simpl; [discriminate|].
  destruct (N.eqb_spec c 123) as [->|Hc].
  - intros H. inversion H; subst. exists [], s. simpl. tauto.
  - intros H. destruct (IH H) as (pre & t & -> & -> & Hpre).
    exists (c :: pre), t. repeat split. simpl. intros [E|E]; [congruence | tauto].
Qed.

Lemma upto_last_close_none (s : pystr) : ~ In 125 s -> upto_last_close s = None.
Proof.
  induction s as [|c s IH]; simpl; intros H; [reflexivity|].
  rewrite IH by tauto.
  destruct (N.eqb_spec c 125) as [->|_]; [exfalso; apply H; now left | reflexivity].
Qed.

Lemma upto_last_close_app (q post : pystr) :
  ~ In 125 post -> upto_last_close (q ++ 125 :: post) = Some (q ++ [125]).
Proof.
  intros H. induction q as [|c q IH]; simpl.
  - now rewrite upto_last_close_none.
  - now rewrite IH.
Qed.

Lemma upto_last_close_spec (s p : pystr) :
  upto_last_close s = Some p ->
  exists q post, p = q ++ [125] /\ s = p ++ post /\ ~ In 125 post.
Proof.
  revert p. induction s as [|c s IH]; simpl; intros p; [discriminate|].
  destruct (upto_last_close s) as [p'|] eqn:E.
  - intros H. inversion H; subst.
    destruct (IH p' eq_refl) as (q & post & -> & -> & Hpost).
    exists (c :: q), post. repeat split. exact Hpost.
  - destruct (N.eqb_spec c 125) as [->|_]; [|discriminate].
    intros H. inversion H; subst. exists [], s. repeat split.
    intros Hin. clear IH H. induction s as [|d s IHs]; [inversion Hin|].
    simpl in E. destruct (upto_last_close s); [discriminate|].
    destruct (N.eqb_spec d 125); [discriminate|].
    destruct Hin as [->|Hin]; [congruence | now apply IHs].
Qed.

(** The match runs from the first opening brace to the last closing one. *)
Lemma re_search_braces_match (pre mid post : pystr) :
  ~ In 123 pre -> ~ In 125 post ->
  re_search_braces (pre ++ [123] ++ mid ++ [125] ++ post) = Some ([123] ++ mid ++ [125]).
Proof.
  intros Hpre Hpost. unfold re_search_braces.
  change (pre ++ [123] ++ mid ++ [125] ++ post)
    with (pre ++ 123 :: (mid ++ 125 :: post)).
  rewrite from_first_open_app by exact Hpre.
  change (123 :: mid ++ 125 :: post) with ((123 :: mid) ++ 125 :: post).
  now rewrite upto_last_close_app.
Qed.

(** A text without an opening brace followed, somewhere, by a closing one
    has no match. *)
Lemma re_search_braces_none (raw : pystr) :
  (~ exists pre mid post, raw = pre ++ [123] ++ mid ++ [125] ++ post) ->
  re_search_braces raw = None.
Proof.
  intros Hno. unfold re_search_braces.
  destruct (from_first_open raw) as [m|] eqn:E; [|reflexivity].
  destruct (upto_last_close m) as [g|] eqn:G; [|reflexivity].
  exfalso. apply Hno.
  destruct (from_first_open_spec _ _ E) as (pre & t & -> & -> & _).
  destruct (upto_last_close_spec _ _ G) as (q & post & -> & Hm & _).
  destruct q as [|c q]; simpl in Hm; inversion Hm; subst.
  exists pre, q, post. simpl. now rewrite <- app_assoc.
Qed.

(** ** The JSON scanner reads its input and never runs out of fuel *)

Lemma skip_ws_length (s : pystr) : (List.length (skip_ws s) <= List.length s)%nat.
Proof.
  induction s as [|c t IH]; simpl; [lia|].
  destruct (is_json_ws c); simpl; lia.
Qed.

Lemma span_digits_length (s ds r : pystr) :
  span_digits s = (ds, r) -> (List.length r <= List.length s)%nat.
Proof.
  revert ds r. induction s as [|c t IH]; simpl; intros ds r H.
  - inversion H; subst. simpl. lia.
  - destruct (is_digit c).
    + destruct (span_digits t) as [ds' r'] eqn:E. inversion H; subst.
      specialize (IH _ _ eq_refl). lia.
    + inversion H; subst. simpl. lia.
Qed.

Lemma strip_prefix_length (w s r : pystr) :
  strip_prefix w s = Some r -> List.length s = (List.length w + List.length r)%nat.
Proof.
  revert s. induction w as [|a w IH]; intros [|b s]; simpl; intros H;
    try discriminate; try (inversion H; subst; reflexivity).
  destruct (a =? b); [|discriminate]. rewrite (IH _ H). reflexivity.
Qed.

Lemma scan_constant_consuming (s : pystr) (v : pyval) (r : pystr) :
  scan_constant s = Some (v, r) -> (List.length r < List.length s)%nat.
Proof.
  unfold scan_constant. intros H.
  repeat match type of H with
         | match strip_prefix ?w s with _ => _ end = _ =>
             let E := fresh "E" in
             destruct (strip_prefix w s) eqn:E;
             [ apply strip_prefix_length in E; inversion H; subst;
               rewrite E; simpl; lia | ]
         end.
  discriminate.
Qed.

Lemma scan_int_part_consuming (s ip r : pystr) :
  scan_int_part s = Some (ip, r) -> (List.length r < List.length s)%nat.
Proof.
  destruct s as [|c t]; simpl; [discriminate|].
  destruct ((49 <=? c) && (c <=? 57)).
  - destruct (span_digits t) as [ds r'] eqn:E. intros H. inversion H; subst.
    apply span_digits_length in E. lia.
  - destruct (c =? 48); [|discriminate]. intros H. inversion H; subst. lia.
Qed.

Lemma scan_fraction_length (s frac r : pystr) :
  scan_fraction s = (frac, r) -> (List.length r <= List.length s)%nat.
Proof.
  destruct s as [|d [|x t]]; simpl; intros H; try (inversion H; subst; simpl; lia).
  destruct ((d =? 46) && is_digit x).
  - destruct (span_digits t) as [ds r'] eqn:E. inversion H; subst.
    apply span_digits_length in E. lia.
  - inversion H; subst. simpl. lia.
Qed.

Lemma scan_exponent_length (s expo r : pystr) :
  scan_exponent s = (expo, r) -> (List.length r <= List.length s)%nat.
Proof.
  destruct s as [|e t]; simpl; intros H; [inversion H; subst; simpl; lia|].
  destruct ((e =? 101) || (e =? 69)); [|inversion H; subst; simpl; lia].
  match type of H with
  | (let '(_, _) := ?x in _) = _ => destruct x as [sign r'] eqn:Es
  end.
  assert (Hr' : (List.length r' <= List.length t)%nat).
  { destruct t as [|sg [|y t']]; try (inversion Es; subst; simpl; lia).
    destruct ((sg =? 43) || (sg =? 45)); inversion Es; subst; simpl; lia. }
  destruct (span_digits r') as [ds r''] eqn:E. apply span_digits_length in E.
  destruct ds; inversion H; subst; simpl; lia.
Qed.

Lemma match_number_consuming (s : pystr) (v : pyval) (r : pystr) :
  match_number s = Some (v, r) -> (List.length r < List.length s)%nat.
Proof.
  unfold match_number.
  match goal with
  | |- (let '(_, _) := ?x in _) = _ -> _ => destruct x as [neg s1] eqn:Es
  end.
  assert (Hs1 : (List.length s1 <= List.length s)%nat).
  { destruct s as [|c t]; [inversion Es; subst; simpl; lia|].
    destruct (c =? 45); inversion Es; subst; simpl; lia. }
  destruct (scan_int_part s1) as [[ip r0]|] eqn:Ei; [|discriminate].
  apply scan_int_part_consuming in Ei.
  destruct (scan_fraction r0) as [frac r1] eqn:Ef. apply scan_fraction_length in Ef.
  destruct (scan_exponent r1) as [expo r2] eqn:Ee. apply scan_exponent_length in Ee.
  intros H. destruct frac, expo; inversion H; subst; lia.
Qed.

Lemma scanstring_consuming (n : nat) :
  forall s acc k r, (List.length s <= n)%nat ->
    scanstring s acc = Returns (k, r) -> (List.length r < List.length s)%nat.
Proof.
  induction n as [|n IH]; intros s acc k r Hn H.
  - destruct s; [discriminate | simpl in Hn; lia].
  - destruct s as [|c t]; [discriminate|].
    simpl in Hn. cbn [scanstring] in H.
    repeat match type of H with
           | (if ?b then _ else _) = _ => destruct b
           | match ?x with _ => _ end = _ => destruct x
           end;
      try discriminate;
      try (inversion H; subst; simpl; lia);
      try (apply IH in H; simpl in *; lia).
Qed.

Section Loops.
Variable scan : pystr -> outcome (pyval * pystr).
Hypothesis scan_consuming : consuming scan.

Lemma parse_array_loop_consuming (fuel : nat) :
  forall s acc v r,
    parse_array_loop scan fuel s acc = Returns (v, r) ->
    (List.length r < List.length s)%nat.
Proof.
  induction fuel as [|fuel IH]; intros s acc v r; simpl; [discriminate|].
  destruct (scan s) as [[v0 r0]|] eqn:Es; [|discriminate].
  apply scan_consuming in Es. pose proof (skip_ws_length r0) as Hw.
  destruct (skip_ws r0) as [|c r1]; [discriminate|]. simpl in Hw.
  destruct (c =? 93); [intros H; inversion H; subst; lia|].
  destruct (c =? 44); [|discriminate].
  intros H. apply IH in H. pose proof (skip_ws_length r1). lia.
Qed.

Lemma parse_array_loop_fuel (fuel1 : nat) :
  forall fuel2 s acc,
    (List.length s < fuel1)%nat -> (List.length s < fuel2)%nat ->
    parse_array_loop scan fuel1 s acc = parse_array_loop scan fuel2 s acc.
Proof.
  induction fuel1 as [|fuel1 IH]; intros [|fuel2] s acc H1 H2; try lia. simpl.
  destruct (scan s) as [[v0 r0]|] eqn:Es; [|reflexivity].
  apply scan_consuming in Es. pose proof (skip_ws_length r0) as Hw.
  destruct (skip_ws r0) as [|c r1]; [reflexivity|]. simpl in Hw.
  destruct (c =? 93); [reflexivity|].
  destruct (c =? 44); [|reflexivity].
  pose proof (skip_ws_length r1). apply IH; lia.
Qed.

Lemma parse_array_consuming (s : pystr) (v : pyval) (r : pystr) :
  parse_array scan s = Returns (v, r) -> (List.length r < List.length s)%nat.
Proof.
  unfold parse_array. pose proof (skip_ws_length s) as Hw.
  destruct (skip_ws s) as [|c r0] eqn:E.
  - intros H. apply parse_array_loop_consuming in H. simpl in H. lia.
  - simpl in Hw. destruct (c =? 93).
    + intros H. inversion H; subst. lia.
    + intros H. apply parse_array_loop_consuming in H. simpl in H. lia.
Qed.

Lemma parse_object_loop_consuming (fuel : nat) :
  forall s acc v r,
    parse_object_loop scan fuel s acc = Returns (v, r) ->
    (List.length r < List.length s)%nat.
Proof.
  induction fuel as [|fuel IH]; intros s acc v r; simpl; [discriminate|].
  destruct s as [|q s1]; [discriminate|].
  destruct (q =? 34); [|discriminate].
  destruct (scanstring s1 []) as [[key r0]|] eqn:Ek; [|discriminate].
  apply (scanstring_consuming _ _ _ _ _ (le_n _)) in Ek.
  pose proof (skip_ws_length r0) as Hw0.
  destruct (skip_ws r0) as [|colon r1]; [discriminate|]. simpl in Hw0.
  destruct (colon =? 58); [|discriminate].
  destruct (scan (skip_ws r1)) as [[v0 r2]|] eqn:Es; [|discriminate].
  apply scan_consuming in Es. pose proof (skip_ws_length r1) as Hw1.
  pose proof (skip_ws_length r2) as Hw2.
  destruct (skip_ws r2) as [|c r3]; [discriminate|]. simpl in Hw2.
  destruct (c =? 125); [intros H; inversion H; subst; simpl; lia|].
  destruct (c =? 44); [|discriminate].
  intros H. apply IH in H. pose proof (skip_ws_length r3). simpl. lia.
Qed.

Lemma parse_object_loop_fuel (fuel1 : nat) :
  forall fuel2 s acc,
    (List.length s < fuel1)%nat -> (List.length s < fuel2)%nat ->
    parse_object_loop scan fuel1 s acc = parse_object_loop scan fuel2 s acc.
Proof.
  induction fuel1 as [|fuel1 IH]; intros [|fuel2] s acc H1 H2; try lia. simpl.
  destruct s as [|q s1]; [reflexivity|].
  destruct (q =? 34); [|reflexivity].
  destruct (scanstring s1 []) as [[key r0]|] eqn:Ek; [|reflexivity].
  apply (scanstring_consuming _ _ _ _ _ (le_n _)) in Ek.
  pose proof (skip_ws_length r0) as Hw0.
  destruct (skip_ws r0) as [|colon r1]; [reflexivity|]. simpl in Hw0.
  destruct (colon =? 58); [|reflexivity].
  destruct (scan (skip_ws r1)) as [[v0 r2]|] eqn:Es; [|reflexivity].
  apply scan_consuming in Es. pose proof (skip_ws_length r1) as Hw1.
  pose proof (skip_ws_length r2) as Hw2.
  destruct (skip_ws r2) as [|c r3]; [reflexivity|]. simpl in Hw2.
  destruct (c =? 125); [reflexivity|].
  destruct (c =? 44); [|reflexivity].
  pose proof (skip_ws_length r3). simpl in *. apply IH; lia.
Qed.

Lemma parse_object_consuming (s : pystr) (v : pyval) (r : pystr) :
  parse_object scan s = Returns (v, r) -> (List.length r < List.length s)%nat.
Proof.
  unfold parse_object. pose proof (skip_ws_length s) as Hw.
  destruct (skip_ws s) as [|c r0] eqn:E.
  - intros H. apply parse_object_loop_consuming in H. simpl in H. lia.
  - simpl in Hw. destruct (c =? 125).
    + intros H. inversion H; subst. lia.
    + intros H. apply parse_object_loop_consuming in H. simpl in H. lia.
Qed.
End Loops.

Lemma scan_once_consuming (depth : nat) : consuming (scan_once depth).
Proof.
  induction depth as [|d IH]; intros s v r; destruct s as [|c t];
    try discriminate; cbn [scan_once].
  all: destruct (c =? 34);
    [ destruct (scanstring t []) as [[str r0]|] eqn:Ek; [|discriminate];
      apply (scanstring_consuming _ _ _ _ _ (le_n _)) in Ek;
      intros H; inversion H; subst; simpl; lia | ].
  all: destruct (c =? 123);
    [ first [ discriminate
            | intros H; apply (parse_object_consuming _ IH) in H; simpl; lia ] | ].
  all: destruct (c =? 91);
    [ first [ discriminate
            | intros H; apply (parse_array_consuming _ IH) in H; simpl; lia ] | ].
  all: destruct (scan_constant (c :: t)) as [[v0 r0]|] eqn:Ec;
    [ apply scan_constant_consuming in Ec; intros H; inversion H; subst; exact Ec | ].
  all: destruct (match_number (c :: t)) as [[v0 r0]|] eqn:Em; [|discriminate].
  all: apply match_number_consuming in Em; intros H; inversion H; subst; exact Em.
Qed.

(** The loops of the scanner never run out of fuel. *)
Theorem scanner_fuel_adequate (depth fuel : nat) (s : pystr) :
  (List.length s < fuel)%nat ->
  (forall acc, parse_array_loop (scan_once depth) fuel s acc
               = parse_array_loop (scan_once depth) (S (List.length s)) s acc)
  /\ (forall acc, parse_object_loop (scan_once depth) fuel s acc
                  = parse_object_loop (scan_once depth) (S (List.length s)) s acc).
Proof.
  intros H. split; intros acc.
  - apply parse_array_loop_fuel; [apply scan_once_consuming | lia | lia].
  - apply parse_object_loop_fuel; [apply scan_once_consuming | lia | lia].
Qed.

(** ** The response-parsing step *)

(** For every raw text the parsing step raises nothing and returns a
    value; a text that is not JSON and in which no opening brace is followed
    by a closing one comes back verbatim under the key [raw]. *)
Lemma parse_response_total :
  (forall depth raw, exists data, parse_response depth raw = Returns data)
  /\ (forall depth raw e,
        json_loads depth raw = Raises e ->
        (~ exists pre mid post, raw = pre ++ [123] ++ mid ++ [125] ++ post) ->
        parse_response depth raw = Returns (PDict [(py "raw", PStr raw)]))
  /\ (forall depth,
        parse_response depth (py "not json at all")
        = Returns (PDict [(py "raw", PStr (py "not json at all"))])).
Proof.
  split; [|split].
  - intros depth raw. unfold parse_response, try_outcome.
    destruct (json_loads depth raw); [eexists; reflexivity|].
    destruct (re_search_braces raw) as [g|]; [|eexists; reflexivity].
    destruct (json_loads depth g); eexists; reflexivity.
  - intros depth raw e Hbad Hno. unfold parse_response, try_outcome.
    now rewrite Hbad, re_search_braces_none.
  - intros depth. destruct depth; vm_compute; reflexivity.
Qed.

Lemma parse_response_total_witness :
  parse_response 1000 (py "no report today")
  = Returns (PDict [(py "raw", PStr (py "no report today"))]).
Proof.
  apply (proj1 (proj2 parse_response_total) 1000%nat (py "no report today")
           (json_error "Expecting value")).
  - vm_compute. reflexivity.
  - intros (pre & mid & post & H).
    assert (Hin : In 123 (py "no report today")).
    { rewrite H. apply in_or_app. right. now left. }
    vm_compute in Hin. repeat (destruct Hin as [Hin|Hin]; [discriminate|]).
    exact Hin.
Defined.

(** C3 holds of every layer but the first: a reply that is JSON as it
    stands, yet no JSON object, leaves the parsing step as the value it
    denotes.  For the reply 42 the step returns the [int] 42, which is no
    [dict], where the function is declared and documented to return a
    [dict]; attaching [_meta] to it then raises [TypeError]. *)
Theorem parse_response_non_object :
  forall depth,
    json_loads depth (py "42") = Returns (PInt 42)
    /\ parse_response depth (py "42") = Returns (PInt 42)
    /\ is_dict (PInt 42) = false
    /\ setitem (PInt 42) (py "_meta") (PDict [])
       = Raises (mkExn TypeError (py "'int' object does not support item assignment")).
Proof.
  intros depth. repeat split; destruct depth; vm_compute; reflexivity.
Qed.

(** C4: a text that is JSON as it stands is returned parsed, without any
    extraction; otherwise the text from the first opening brace to the last
    closing brace is what is parsed (and the raw text is wrapped if that
    fails too), as in the example, whose braces hold the object with [a]
    set to 1. *)
Theorem parse_response_layers :
  (forall depth raw data,
     json_loads depth raw = Returns data ->
     parse_response depth raw = Returns data)
  /\ (forall depth raw e pre mid post,
        json_loads depth raw = Raises e ->
        raw = pre ++ [123] ++ mid ++ [125] ++ post ->
        ~ In 123 pre -> ~ In 125 post ->
        parse_response depth raw
        = Returns match json_loads depth ([123] ++ mid ++ [125]) with
                  | Returns data => data
                  | Raises _ => PDict [(py "raw", PStr raw)]
                  end)
  /\ (forall depth,
        parse_response (S depth)
          (py "Here is the result: {" ++ quote ++ py "a" ++ quote ++ py ":1} done")
        = Returns (PDict [(py "a", PInt 1)])).
Proof.
  split; [|split].
  - intros depth raw data H. unfold parse_response, try_outcome. now rewrite H.
  - intros depth raw e pre mid post Hbad -> Hpre Hpost.
    unfold parse_response, try_outcome.
    rewrite Hbad, re_search_braces_match by assumption.
    destruct (json_loads depth ([123] ++ mid ++ [125])); reflexivity.
  - intros depth. destruct depth; vm_compute; reflexivity.
Qed.

Lemma parse_response_layers_witness :
  parse_response 1000 (py "[7]") = Returns (PList [PInt 7])
  /\ parse_response 1000 (py "ok: {} }{")
     = Returns match json_loads 1000 ([123] ++ py "} " ++ [125]) with
               | Returns data => data
               | Raises _ => PDict [(py "raw", PStr (py "ok: {} }{"))]
               end.
Proof.
  destruct parse_response_layers as (Hdirect & Hextract & _).
  split.
  - apply Hdirect. vm_compute. reflexivity.
  - apply (Hextract 1000%nat (py "ok: {} }{") (json_error "Expecting value")
             (py "ok: ") (py "} ") (py "{")).
    + vm_compute. reflexivity.
    + vm_compute. reflexivity.
    + vm_compute. intros H. repeat (destruct H as [H|H]; [discriminate|]). exact H.
    + vm_compute. intros H. repeat (destruct H as [H|H]; [discriminate|]). exact H.
Defined.

(** ** [generate_recommendation_report] *)

Ltac run_report :=
  unfold run, generate_recommendation_report, bind, lift, ret, try_except,
    call_service.

(** A call either raises before anything is sent, or sends exactly one
    request and ends as [report_of_reply] says on the reply to it. *)
Lemma generate_recommendation_report_run
    (w : World) (base_inputs predictions confidences : pydict) :
  (exists e,
      run (generate_recommendation_report w base_inputs predictions confidences)
      = (Raises e, []))
  \/ (exists req,
        run (generate_recommendation_report w base_inputs predictions confidences)
        = (report_of_reply w base_inputs predictions confidences
             (generate_content w req), [req])).
Proof.
  run_report.
  destruct (_get_gemini_client w) as [key|e0]; [|left; eexists; reflexivity].
  destruct (dict_get_default confidences (py "Primary_Fertilizer") PNone) eqn:Hconf;
    cbv beta iota;
    try match goal with
        | |- context [round_percent w ?v] =>
            destruct (round_percent w v) as [pct|e1]; [|left; eexists; reflexivity]
        end;
    (match goal with
     | |- context [json_dumps w ?v] => destruct (json_dumps w v) as [js|e2]
     end; [|left; eexists; reflexivity]);
    (match goal with
     | |- context [generate_content w ?r] =>
         right; exists r; unfold report_of_reply, error_object, meta_block;
         destruct (generate_content w r) as [content|e3]
     end; cbv beta iota zeta;
     [ destruct (parse_response (recursion_limit w) content) as [data|e4];
       cbv beta iota zeta;
       [ destruct (setitem data _ _); reflexivity | reflexivity ]
     | reflexivity ]).
Qed.

(** C1, as stated, fails: with the package installed and no
    [GEMINI_API_KEY] anywhere, the call sends nothing and ends in a raised
    [RuntimeError]; no report, error-shaped or other, is returned.  And
    with a key that the service rejects, the error-shaped report comes only
    after the request went out. *)
Lemma missing_api_key_no_report :
  getenv_GEMINI_API_KEY (sample_world None (Returns (py "{}"))) = None
  /\ run (generate_recommendation_report (sample_world None (Returns (py "{}")))
            sample_inputs sample_predictions sample_confidences)
     = (Raises (mkExn RuntimeError
                  (py "GEMINI_API_KEY is not set. Export it or add to a .env file.")),
        [])
  /\ (~ exists report,
         fst (run (generate_recommendation_report (sample_world None (Returns (py "{}")))
                     sample_inputs sample_predictions sample_confidences))
         = Returns report)
  /\ snd (run (generate_recommendation_report
                 (sample_world (Some (py "bad-key")) (Raises invalid_key_error))
                 sample_inputs sample_predictions sample_confidences))
     = [sample_request].
Proof.
  split; [reflexivity|]. split; [reflexivity|]. split; [|reflexivity].
  intros [report H]. discriminate H.
Qed.

(** C1, amended: a missing key ([GEMINI_API_KEY] unset or empty, in the
    environment and in the [.env] file) surfaces at once, before any request
    is sent, as a [RuntimeError] raised to the caller: the one about the
    key when the package can be imported, the one about the package
    otherwise.  A key that is present but that the service rejects surfaces
    when the call raises, after the request went out, as the error-shaped
    report with its [_meta] block; no exception reaches the caller then. *)
Theorem missing_or_invalid_credentials
    (w : World) (base_inputs predictions confidences : pydict) :
  (getenv_GEMINI_API_KEY w = None \/ getenv_GEMINI_API_KEY w = Some [] ->
   run (generate_recommendation_report w base_inputs predictions confidences)
   = (Raises
        (mkExn RuntimeError
           (if genai_importable w
            then py "GEMINI_API_KEY is not set. Export it or add to a .env file."
            else py "google-generativeai package is required. Install dependencies from requirements.txt")),
      []))
  /\ (forall key req e,
        _get_gemini_client w = Returns key ->
        snd (run (generate_recommendation_report w base_inputs predictions confidences))
        = [req] ->
        generate_content w req = Raises e ->
        run (generate_recommendation_report w base_inputs predictions confidences)
        = (Returns
             (PDict [ (py "error",
                       PStr (py "Failed to generate recommendation: " ++ exc_msg e));
                      (py "_meta",
                       PDict [ (py "generated_at",
                                PStr (isoformat (utcnow w) ++ py "Z"));
                               (py "inputs", PDict base_inputs);
                               (py "predictions", PDict predictions);
                               (py "confidences", PDict confidences) ]) ]),
           [req])).
Proof.
  split.
  - intros Hkey. run_report. unfold _get_gemini_client.
    destruct (genai_importable w); [|reflexivity].
    destruct Hkey as [-> | ->]; reflexivity.
  - intros key req e _ Hsent Hfail.
    destruct (generate_recommendation_report_run w base_inputs predictions confidences)
      as [[e0 H]|[req' H]]; rewrite H in *; simpl in Hsent; [discriminate|].
    inversion Hsent; subst req'.
    unfold report_of_reply. rewrite Hfail. reflexivity.
Qed.

Lemma missing_or_invalid_credentials_witness :
  run (generate_recommendation_report (sample_world (Some []) (Returns (py "{}")))
         sample_inputs sample_predictions sample_confidences)
  = (Raises (mkExn RuntimeError
               (py "GEMINI_API_KEY is not set. Export it or add to a .env file.")),
     [])
  /\ run (generate_recommendation_report
            (sample_world (Some (py "bad-key")) (Raises invalid_key_error))
            sample_inputs sample_predictions sample_confidences)
     = (Returns
          (PDict [ (py "error",
                    PStr (py "Failed to generate recommendation: 400 API key not valid. Please pass a valid API key."));
                   (py "_meta",
                    PDict [ (py "generated_at", PStr (py "2024-05-17T09:30:00Z"));
                            (py "inputs", PDict sample_inputs);
                            (py "predictions", PDict sample_predictions);
                            (py "confidences", PDict sample_confidences) ]) ]),
        [sample_request]).
Proof.
  split.
  - apply (proj1 (missing_or_invalid_credentials
                    (sample_world (Some []) (Returns (py "{}")))
                    sample_inputs sample_predictions sample_confidences)).
    right. reflexivity.
  - apply (proj2 (missing_or_invalid_credentials
                    (sample_world (Some (py "bad-key")) (Raises invalid_key_error))
                    sample_inputs sample_predictions sample_confidences)
             (py "bad-key") sample_request invalid_key_error).
    + reflexivity.
    + reflexivity.
    + reflexivity.
Defined.

(** C2: whatever the arguments, when the request goes out and the service
    call raises, the function returns (it does not raise) the object with
    the failure description under [error] and the [_meta] block. *)
Theorem service_failure_gives_error_report
    (w : World) (base_inputs predictions confidences : pydict)
    (req : GenRequest) (e : exn) :
  snd (run (generate_recommendation_report w base_inputs predictions confidences))
  = [req] ->
  generate_content w req = Raises e ->
  fst (run (generate_recommendation_report w base_inputs predictions confidences))
  = Returns
      (PDict [ (py "error",
                PStr (py "Failed to generate recommendation: " ++ exc_msg e));
               (py "_meta",
                PDict [ (py "generated_at", PStr (isoformat (utcnow w) ++ py "Z"));
                        (py "inputs", PDict base_inputs);
                        (py "predictions", PDict predictions);
                        (py "confidences", PDict confidences) ]) ]).
Proof.
  intros Hsent Hfail.
  destruct (generate_recommendation_report_run w base_inputs predictions confidences)
    as [[e0 H]|[req' H]]; rewrite H in *; simpl in Hsent; [discriminate|].
  inversion Hsent; subst req'. simpl.
  unfold report_of_reply. rewrite Hfail. reflexivity.
Qed.

Lemma service_failure_gives_error_report_witness :
  fst (run (generate_recommendation_report
              (sample_world (Some (py "k-123")) (Raises timeout_error))
              sample_inputs sample_predictions sample_confidences))
  = Returns
      (PDict [ (py "error",
                PStr (py "Failed to generate recommendation: 504 Deadline Exceeded"));
               (py "_meta",
                PDict [ (py "generated_at", PStr (py "2024-05-17T09:30:00Z"));
                        (py "inputs", PDict sample_inputs);
                        (py "predictions", PDict sample_predictions);
                        (py "confidences", PDict sample_confidences) ]) ]).
Proof.
  apply (service_failure_gives_error_report
           (sample_world (Some (py "k-123")) (Raises timeout_error))
           sample_inputs sample_predictions sample_confidences
           sample_request timeout_error).
  - reflexivity.
  - reflexivity.
Defined.

(** C5: the replies [42] and [[1, 2]] are JSON as they stand but no JSON
    object; the first layer parses them to an [int] and a [list], and
    attaching [_meta] to those raises a [TypeError] that leaves
    [generate_recommendation_report]: the caller gets an exception, not a
    report. *)
Theorem non_object_reply_raises_type_error
    (w : World) (base_inputs predictions confidences : pydict) (req : GenRequest) :
  snd (run (generate_recommendation_report w base_inputs predictions confidences))
  = [req] ->
  (generate_content w req = Returns (py "42") ->
     json_loads (recursion_limit w) (py "42") = Returns (PInt 42)
     /\ fst (run (generate_recommendation_report w base_inputs predictions confidences))
        = Raises (mkExn TypeError
                    (py "'int' object does not support item assignment")))
  /\ (generate_content w req = Returns (py "[1, 2]") ->
      (0 < recursion_limit w)%nat ->
      json_loads (recursion_limit w) (py "[1, 2]") = Returns (PList [PInt 1; PInt 2])
      /\ fst (run (generate_recommendation_report w base_inputs predictions confidences))
         = Raises (mkExn TypeError
                     (py "list indices must be integers or slices, not str"))).
Proof.
  intros Hsent.
  destruct (generate_recommendation_report_run w base_inputs predictions confidences)
    as [[e0 H]|[req' H]]; rewrite H in *; simpl in Hsent; [discriminate|].
  inversion Hsent; subst req'. clear Hsent H. simpl fst.
  unfold report_of_reply, parse_response, try_outcome. split.
  - intros ->.
    assert (E : json_loads (recursion_limit w) (py "42") = Returns (PInt 42))
      by (destruct (recursion_limit w); vm_compute; reflexivity).
    rewrite E. split; reflexivity.
  - intros -> Hdepth.
    assert (E : json_loads (recursion_limit w) (py "[1, 2]")
                = Returns (PList [PInt 1; PInt 2])).
    { destruct (recursion_limit w) as [|d]; [lia|].
      destruct d; vm_compute; reflexivity. }
    rewrite E. split; reflexivity.
Qed.

Lemma non_object_reply_raises_type_error_witness :
  fst (run (generate_recommendation_report
              (sample_world (Some (py "k-123")) (Returns (py "[1, 2]")))
              sample_inputs sample_predictions sample_confidences))
  = Raises (mkExn TypeError (py "list indices must be integers or slices, not str"))
  /\ fst (run (generate_recommendation_report
                 (sample_world (Some (py "k-123")) (Returns (py "42")))
                 sample_inputs sample_predictions sample_confidences))
     = Raises (mkExn TypeError (py "'int' object does not support item assignment")).
Proof.
  split.
  - apply (proj2 (non_object_reply_raises_type_error
                    (sample_world (Some (py "k-123")) (Returns (py "[1, 2]")))
                    sample_inputs sample_predictions sample_confidences
                    sample_request eq_refl) eq_refl).
    vm_compute. lia.
  - apply (proj1 (non_object_reply_raises_type_error
                    (sample_world (Some (py "k-123")) (Returns (py "42")))
                    sample_inputs sample_predictions sample_confidences
                    sample_request eq_refl) eq_refl).
Defined.

(** ** The [_meta] block *)

Lemma is_digit_digit_char (n : N) : is_digit (digit_char n) = true.
Proof.
  unfold is_digit, digit_char.
  assert (Hm : n mod 10 < 10) by (apply N.mod_upper_bound; discriminate).
  revert Hm. generalize (n mod 10). intros m Hm.
  apply andb_true_iff. split; apply N.leb_le; lia.
Qed.

(** Whatever the clock reads, the timestamp has the ISO-8601 shape and
    ends in Z. *)
Lemma isoformat_shape (dt : datetime) :
  is_iso8601_utc_z (isoformat dt ++ py "Z") = true.
Proof.
  unfold isoformat.
  destruct (microsecond dt =? 0);
    cbn -[N.div N.modulo digit_char is_digit];
    rewrite !is_digit_digit_char; reflexivity.
Qed.

(** C9: every report the function returns, whether parsed from the reply,
    wrapping the raw reply or describing an error, is an object whose
    [_meta] holds the three arguments as they were passed and a timestamp
    of ISO-8601 shape, in UTC, ending in Z. *)
Theorem report_meta_echoes_arguments
    (w : World) (base_inputs predictions confidences : pydict) (report : pyval) :
  fst (run (generate_recommendation_report w base_inputs predictions confidences))
  = Returns report ->
  exists fields meta generated_at,
    report = PDict fields
    /\ dict_get fields (py "_meta") = Some (PDict meta)
    /\ dict_get meta (py "inputs") = Some (PDict base_inputs)
    /\ dict_get meta (py "predictions") = Some (PDict predictions)
    /\ dict_get meta (py "confidences") = Some (PDict confidences)
    /\ dict_get meta (py "generated_at") = Some (PStr generated_at)
    /\ generated_at = isoformat (utcnow w) ++ py "Z"
    /\ is_iso8601_utc_z generated_at = true.
Proof.
  intros Hret.
  destruct (generate_recommendation_report_run w base_inputs predictions confidences)
    as [[e0 H]|[req H]]; rewrite H in Hret; simpl in Hret; [discriminate|].
  unfold report_of_reply in Hret.
  match type of Hret with
  | setitem ?data _ _ = _ => destruct data as [| | | | | |fields]; try discriminate
  end.
  simpl in Hret. inversion Hret; subst report.
  eexists _, _, _. split; [reflexivity|].
  split; [apply dict_get_set_same|].
  repeat (split; [reflexivity|]). apply isoformat_shape.
Qed.

(** The three kinds of report, in worlds that differ in the reply only. *)
Example report_parsed :
  fst (run (generate_recommendation_report
              (sample_world (Some (py "k-123"))
                 (Returns (py "{" ++ quote ++ py "a" ++ quote ++ py ":1}")))
              sample_inputs sample_predictions sample_confidences))
  = Returns (PDict [ (py "a", PInt 1);
                     (py "_meta",
                      meta_block (sample_world (Some (py "k-123")) (Returns []))
                        sample_inputs sample_predictions sample_confidences) ]).
Proof. vm_compute. reflexivity. Qed.

Example report_raw :
  fst (run (generate_recommendation_report
              (sample_world (Some (py "k-123")) (Returns (py "not json at all")))
              sample_inputs sample_predictions sample_confidences))
  = Returns (PDict [ (py "raw", PStr (py "not json at all"));
                     (py "_meta",
                      meta_block (sample_world (Some (py "k-123")) (Returns []))
                        sample_inputs sample_predictions sample_confidences) ]).
Proof. vm_compute. reflexivity. Qed.

Lemma report_meta_echoes_arguments_witness :
  exists fields meta generated_at,
    PDict [ (py "raw", PStr (py "not json at all"));
            (py "_meta",
             meta_block (sample_world (Some (py "k-123")) (Returns []))
               sample_inputs sample_predictions sample_confidences) ]
    = PDict fields
    /\ dict_get fields (py "_meta") = Some (PDict meta)
    /\ dict_get meta (py "inputs") = Some (PDict sample_inputs)
    /\ dict_get meta (py "predictions") = Some (PDict sample_predictions)
    /\ dict_get meta (py "confidences") = Some (PDict sample_confidences)
    /\ dict_get meta (py "generated_at") = Some (PStr generated_at)
    /\ generated_at = py "2024-05-17T09:30:00Z"
    /\ is_iso8601_utc_z generated_at = true.
Proof.
  apply (report_meta_echoes_arguments
           (sample_world (Some (py "k-123")) (Returns (py "not json at all")))
           sample_inputs sample_predictions sample_confidences).
  vm_compute. reflexivity.
Defined.

(** * Further properties *)

(** ** The steps of [generate_recommendation_report] *)

(** The function, step by step: the client, the percentage, the
    serialisation, then one request and what is made of its reply. *)
Lemma generate_recommendation_report_steps
    (w : World) (base_inputs predictions confidences : pydict) :
  run (generate_recommendation_report w base_inputs predictions confidences)
  = match _get_gemini_client w with
    | Raises e => (Raises e, [])
    | Returns _ =>
        match primary_confidence_percent w confidences with
        | Raises e => (Raises e, [])
        | Returns pct =>
            match json_dumps w (user_payload w base_inputs predictions pct) with
            | Raises e => (Raises e, [])
            | Returns js =>
                (report_of_reply w base_inputs predictions confidences
                   (generate_content w (report_request js)),
                 [report_request js])
            end
        end
    end.
Proof.
  run_report.
  unfold primary_confidence_percent, user_payload, payload_notes, report_request,
    full_prompt, report_of_reply, error_object, meta_block.
  destruct (_get_gemini_client w) as [key|e0]; [|reflexivity].
  destruct (dict_get_default confidences (py "Primary_Fertilizer") PNone) eqn:Hconf;
    cbv beta iota zeta;
    try match goal with
        | |- context [round_percent w ?v] =>
            destruct (round_percent w v) as [pct|e1]; [|reflexivity]
        end;
    (match goal with
     | |- context [json_dumps w ?v] => destruct (json_dumps w v) as [js|e2]
     end; [|reflexivity]);
    cbv beta iota zeta;
    (match goal with
     | |- context [generate_content w ?r] =>
         destruct (generate_content w r) as [content|e3]
     end; cbv beta iota zeta;
     [ destruct (parse_response (recursion_limit w) content) as [data|e4];
       cbv beta iota zeta;
       [ destruct (setitem data _ _); reflexivity | reflexivity ]
     | reflexivity ]).
Qed.

(** ** More on [normalize_name] and the alias table *)

Lemma alias_table_normal (ud : UnicodeData) :
  forallb (alias_entry_normal ud) FERT_ALIAS = true.
Proof. vm_compute. reflexivity. Qed.

Lemma alias_entry_normal_spec (ud : UnicodeData) (k v : pystr) :
  In (k, v) FERT_ALIAS -> lower ud k = k /\ strip v = v /\ v <> [].
Proof.
  intros Hin.
  pose proof (proj1 (forallb_forall _ _) (alias_table_normal ud) _ Hin) as H.
  unfold alias_entry_normal in H.
  repeat (apply andb_true_iff in H; destruct H as [H ?]).
  repeat split; try now apply pystr_eqb_eq.
  intros ->. discriminate.
Qed.

Lemma strip_padding (l s r : pystr) :
  forallb is_space l = true -> forallb is_space r = true ->
  strip (l ++ s ++ r) = strip s.
Proof.
  intros Hl Hr. unfold strip. rewrite lstrip_app_space by exact Hl.
  induction s as [|c t IH]; simpl.
  - now rewrite lstrip_all_space.
  - destruct (is_space c); [exact IH|].
    change (c :: t ++ r) with ((c :: t) ++ r). now apply rstrip_app_space.
Qed.

(** X1: [normalize_name] gives [None] for [None] and the empty string
    only, and every name it returns is trimmed: it is the canonical name of
    an alias entry or the trimmed input. *)
Theorem normalize_name_result (ud : UnicodeData) (name : option pystr) :
  (normalize_name ud name = None <-> name = None \/ name = Some [])
  /\ (forall r, normalize_name ud name = Some r ->
        strip r = r
        /\ exists s, name = Some s
                     /\ ((exists k, In (k, r) FERT_ALIAS) \/ r = strip s)).
Proof.
  destruct name as [[|c t]|]; simpl; split;
    try (split; [tauto | intros _; reflexivity]);
    try (intros r H; discriminate H).
  - split; [discriminate | intros [H|H]; discriminate H].
  - intros r H. inversion H; subst r; clear H. unfold dict_get_default.
    destruct (dict_get FERT_ALIAS (lower ud (strip (c :: t)))) as [v|] eqn:E.
    + apply dict_get_In in E. split.
      * now apply (alias_entry_normal_spec ud) in E.
      * exists (c :: t). split; [reflexivity|]. left. eexists. exact E.
    + split; [apply strip_idem|]. exists (c :: t). split; [reflexivity | now right].
Qed.

Lemma normalize_name_result_witness :
  strip (py "Zinc Sulphate") = py "Zinc Sulphate".
Proof.
  apply (proj2 (normalize_name_result sample_unicode (Some (py "  Zinc Sulphate ")))
           (py "Zinc Sulphate")).
  vm_compute. reflexivity.
Defined.

(** X2: whitespace around a non-empty name does not change its
    normalisation. *)
Theorem normalize_name_ignores_padding (ud : UnicodeData) (l s r : pystr) :
  forallb is_space l = true -> forallb is_space r = true -> s <> [] ->
  normalize_name ud (Some (l ++ s ++ r)) = normalize_name ud (Some s).
Proof.
  intros Hl Hr Hs.
  rewrite !normalize_name_nonempty; [now rewrite strip_padding | exact Hs |].
  intros E. apply app_eq_nil in E. destruct E as [_ E].
  apply app_eq_nil in E. destruct E as [E _]. now apply Hs.
Qed.

Lemma normalize_name_ignores_padding_witness :
  normalize_name sample_unicode (Some (py "  " ++ py "Gypsum" ++ py " "))
  = normalize_name sample_unicode (Some (py "Gypsum")).
Proof.
  apply normalize_name_ignores_padding.
  - vm_compute. reflexivity.
  - vm_compute. reflexivity.
  - discriminate.
Defined.



(** X4: looking a key up in the alias table finds exactly the entries of
    the table (no entry is shadowed by another), and every entry has a key
    in lowercase, trimmed form and a trimmed canonical name. *)
Theorem alias_table_well_formed (ud : UnicodeData) (k v : pystr) :
  (In (k, v) FERT_ALIAS <-> dict_get FERT_ALIAS k = Some v)
  /\ (In (k, v) FERT_ALIAS -> lower ud k = k /\ strip k = k /\ strip v = v).
Proof.
  split; [split|].
  - intros Hin. now apply (alias_entry ud) in Hin.
  - apply dict_get_In.
  - intros Hin. destruct (alias_entry ud k v Hin) as (_ & _ & Hl & Hr & _).
    destruct (alias_entry_normal_spec ud k v Hin) as (Hlow & Hv & _).
    repeat split; try assumption. unfold strip. now rewrite Hl, Hr.
Qed.

Lemma alias_table_well_formed_witness :
  lower sample_unicode (py "wood ash") = py "wood ash"
  /\ strip (py "wood ash") = py "wood ash"
  /\ strip (py "Wood Ash") = py "Wood Ash".
Proof.
  apply (proj2 (alias_table_well_formed sample_unicode (py "wood ash") (py "Wood Ash"))).
  apply (proj2 (proj1 (alias_table_well_formed sample_unicode
                         (py "wood ash") (py "Wood Ash")))).
  vm_compute. reflexivity.
Defined.

(** ** More on [_get_gemini_client] *)

(** X5: without the [google.generativeai] package the function raises the
    [RuntimeError] that asks for it, whatever key is configured, and sends
    nothing. *)
Theorem missing_package_raises
    (w : World) (base_inputs predictions confidences : pydict) :
  genai_importable w = false ->
  run (generate_recommendation_report w base_inputs predictions confidences)
  = (Raises (mkExn RuntimeError
               (py "google-generativeai package is required. Install dependencies from requirements.txt")),
     []).
Proof.
  intros H. rewrite generate_recommendation_report_steps.
  unfold _get_gemini_client. rewrite H. reflexivity.
Qed.

Lemma missing_package_raises_witness :
  run (generate_recommendation_report
         (mkWorld false (Some (py "k-123")) None (fun _ => Returns PNone)
            (fun _ => []) (fun _ => Returns []) 1000 (fun _ => Returns [])
            (mkDatetime 2024 5 17 9 30 0 0))
         sample_inputs sample_predictions sample_confidences)
  = (Raises (mkExn RuntimeError
               (py "google-generativeai package is required. Install dependencies from requirements.txt")),
     []).
Proof. apply missing_package_raises. reflexivity. Defined.

(** X6: with the package installed, a non-empty key in the environment is
    the one used, whatever the [.env] file says; an empty value in the
    environment is not replaced by the file and counts as no key; the entry
    of the file is used only when the environment has no such variable. *)
Theorem api_key_precedence (w : World) :
  genai_importable w = true ->
  (forall k, environ_GEMINI_API_KEY w = Some k -> k <> [] ->
             _get_gemini_client w = Returns k)
  /\ (environ_GEMINI_API_KEY w = Some [] ->
      _get_gemini_client w
      = Raises (mkExn RuntimeError
                  (py "GEMINI_API_KEY is not set. Export it or add to a .env file.")))
  /\ (forall k, environ_GEMINI_API_KEY w = None ->
                dotenv_GEMINI_API_KEY w = Some k -> k <> [] ->
                _get_gemini_client w = Returns k).
Proof.
  intros Himp. unfold _get_gemini_client, getenv_GEMINI_API_KEY. rewrite Himp.
  repeat split.
  - intros k -> Hk. destruct k; [congruence | reflexivity].
  - intros ->. reflexivity.
  - intros k -> -> Hk. destruct k; [congruence | reflexivity].
Qed.

Lemma api_key_precedence_witness :
  _get_gemini_client
    (mkWorld true (Some []) (Some (py "k-from-file")) (fun _ => Returns PNone)
       (fun _ => []) (fun _ => Returns []) 1000 (fun _ => Returns [])
       (mkDatetime 2024 5 17 9 30 0 0))
  = Raises (mkExn RuntimeError
              (py "GEMINI_API_KEY is not set. Export it or add to a .env file.")).
Proof.
  apply (proj1 (proj2 (api_key_precedence
                         (mkWorld true (Some []) (Some (py "k-from-file"))
                            (fun _ => Returns PNone) (fun _ => [])
                            (fun _ => Returns []) 1000 (fun _ => Returns [])
                            (mkDatetime 2024 5 17 9 30 0 0))
                         eq_refl))).
  reflexivity.
Defined.

(** ** More on [generate_recommendation_report] *)

(** X7: a call sends at most one request (no retry); it goes to the flash
    model with temperature 0.4 and one candidate, and its prompt is the
    system prompt, the instruction line and the serialised payload built
    from the arguments. *)
Theorem single_request_fixed_parameters
    (w : World) (base_inputs predictions confidences : pydict) (req : GenRequest) :
  In req (snd (run (generate_recommendation_report w base_inputs predictions confidences))) ->
  snd (run (generate_recommendation_report w base_inputs predictions confidences)) = [req]
  /\ req_model req = py "gemini-1.5-flash"
  /\ req_temperature req = 4 # 10
  /\ req_candidate_count req = 1%Z
  /\ exists pct js,
       primary_confidence_percent w confidences = Returns pct
       /\ json_dumps w (user_payload w base_inputs predictions pct) = Returns js
       /\ req_prompt req
          = system_prompt ++ nl ++ nl
            ++ py "Generate a structured agronomy report as JSON (no extra text)."
            ++ nl ++ js.
Proof.
  rewrite generate_recommendation_report_steps.
  destruct (_get_gemini_client w); [|intros []].
  destruct (primary_confidence_percent w confidences) as [pct|]; [|intros []].
  destruct (json_dumps w (user_payload w base_inputs predictions pct)) as [js|] eqn:E;
    [|intros []].
  simpl. intros [<-|[]]. repeat split. exists pct, js. repeat split. exact E.
Qed.

Lemma single_request_fixed_parameters_witness :
  snd (run (generate_recommendation_report
              (sample_world (Some (py "k-123")) (Raises timeout_error))
              sample_inputs sample_predictions sample_confidences))
  = [sample_request].
Proof.
  apply (single_request_fixed_parameters
           (sample_world (Some (py "k-123")) (Raises timeout_error))
           sample_inputs sample_predictions sample_confidences sample_request).
  left. reflexivity.
Defined.

(** X8: a report is returned only after exactly one request was sent; a
    call that sends nothing raises. *)
Theorem report_needs_one_request
    (w : World) (base_inputs predictions confidences : pydict) :
  (forall report,
      fst (run (generate_recommendation_report w base_inputs predictions confidences))
      = Returns report ->
      exists req,
        snd (run (generate_recommendation_report w base_inputs predictions confidences))
        = [req])
  /\ (snd (run (generate_recommendation_report w base_inputs predictions confidences)) = [] ->
      exists e,
        fst (run (generate_recommendation_report w base_inputs predictions confidences))
        = Raises e).
Proof.
  rewrite generate_recommendation_report_steps.
  destruct (_get_gemini_client w);
    [|split; [discriminate | eexists; reflexivity]].
  destruct (primary_confidence_percent w confidences) as [pct|];
    [|split; [discriminate | eexists; reflexivity]].
  destruct (json_dumps w (user_payload w base_inputs predictions pct)) as [js|];
    [|split; [discriminate | eexists; reflexivity]].
  split; [eexists; reflexivity | discriminate].
Qed.

Lemma report_needs_one_request_witness :
  exists req,
    snd (run (generate_recommendation_report
                (sample_world (Some (py "k-123")) (Returns (py "not json at all")))
                sample_inputs sample_predictions sample_confidences))
    = [req].
Proof.
  apply (proj1 (report_needs_one_request
                  (sample_world (Some (py "k-123")) (Returns (py "not json at all")))
                  sample_inputs sample_predictions sample_confidences)
           (PDict [ (py "raw", PStr (py "not json at all"));
                    (py "_meta",
                     meta_block (sample_world (Some (py "k-123")) (Returns []))
                       sample_inputs sample_predictions sample_confidences) ])).
  vm_compute. reflexivity.
Defined.

(** X9: once the request is out, the only exception that reaches the caller
    is the [TypeError] of attaching [_meta], and the call raises exactly
    when the reply parsed to something other than an object. *)
Theorem post_request_failure_is_type_error
    (w : World) (base_inputs predictions confidences : pydict) (req : GenRequest) :
  snd (run (generate_recommendation_report w base_inputs predictions confidences))
  = [req] ->
  (forall e,
      fst (run (generate_recommendation_report w base_inputs predictions confidences))
      = Raises e ->
      exc_type e = TypeError)
  /\ ((exists e,
          fst (run (generate_recommendation_report w base_inputs predictions confidences))
          = Raises e)
      <-> exists content data,
            generate_content w req = Returns content
            /\ parse_response (recursion_limit w) content = Returns data
            /\ is_dict data = false).
Proof.
  rewrite generate_recommendation_report_steps.
  destruct (_get_gemini_client w); [|discriminate].
  destruct (primary_confidence_percent w confidences) as [pct|]; [|discriminate].
  destruct (json_dumps w (user_payload w base_inputs predictions pct)) as [js|];
    [|discriminate].
  simpl. intros Hsent. inversion Hsent; subst req; clear Hsent.
  unfold report_of_reply, error_object.
  destruct (generate_content w (report_request js)) as [content|e1] eqn:Hreply.
  - destruct (parse_response (recursion_limit w) content) as [data|e2] eqn:Hparse.
    + split; [|split].
      * intros e H. destruct data; simpl in H; inversion H; reflexivity.
      * intros [e H]. exists content, data. split; [reflexivity|].
        split; [exact Hparse|].
        destruct data; try reflexivity. simpl in H. discriminate H.
      * intros (content' & data' & Hc & Hp & Hd).
        inversion Hc; subst content'. rewrite Hparse in Hp.
        inversion Hp; subst data'.
        destruct data; try (eexists; reflexivity). discriminate Hd.
    + split; [intros e H; discriminate H | split].
      * intros [e H]. discriminate H.
      * intros (content' & data' & Hc & Hp & _).
        inversion Hc; subst content'. rewrite Hparse in Hp. discriminate Hp.
  - split; [intros e H; discriminate H | split].
    + intros [e H]. discriminate H.
    + intros (content' & data' & Hc & _). discriminate Hc.
Qed.

Lemma post_request_failure_is_type_error_witness :
  (forall e,
      fst (run (generate_recommendation_report
                  (sample_world (Some (py "k-123")) (Returns (quote ++ py "fine" ++ quote)))
                  sample_inputs sample_predictions sample_confidences))
      = Raises e ->
      exc_type e = TypeError)
  /\ ((exists e,
          fst (run (generate_recommendation_report
                      (sample_world (Some (py "k-123"))
                         (Returns (quote ++ py "fine" ++ quote)))
                      sample_inputs sample_predictions sample_confidences))
          = Raises e)
      <-> exists content data,
            generate_content
              (sample_world (Some (py "k-123")) (Returns (quote ++ py "fine" ++ quote)))
              sample_request
            = Returns content
            /\ parse_response 1000 content = Returns data
            /\ is_dict data = false).
Proof.
  apply (post_request_failure_is_type_error
           (sample_world (Some (py "k-123")) (Returns (quote ++ py "fine" ++ quote)))
           sample_inputs sample_predictions sample_confidences sample_request).
  reflexivity.
Defined.

(** X10: when the reply parses to an object, the report is that object
    with [_meta] set: a [_meta] of the reply is overwritten and every other
    field is kept as parsed. *)
Theorem parsed_object_keeps_fields
    (w : World) (base_inputs predictions confidences : pydict)
    (req : GenRequest) (content : pystr) (d : pydict) :
  snd (run (generate_recommendation_report w base_inputs predictions confidences))
  = [req] ->
  generate_content w req = Returns content ->
  parse_response (recursion_limit w) content = Returns (PDict d) ->
  exists fields,
    fst (run (generate_recommendation_report w base_inputs predictions confidences))
    = Returns (PDict fields)
    /\ dict_get fields (py "_meta")
       = Some (meta_block w base_inputs predictions confidences)
    /\ forall k, pystr_eqb (py "_meta") k = false ->
                 dict_get fields k = dict_get d k.
Proof.
  rewrite generate_recommendation_report_steps.
  destruct (_get_gemini_client w); [|discriminate].
  destruct (primary_confidence_percent w confidences) as [pct|]; [|discriminate].
  destruct (json_dumps w (user_payload w base_inputs predictions pct)) as [js|];
    [|discriminate].
  simpl. intros Hsent. inversion Hsent; subst req; clear Hsent.
  intros Hreply Hparse. unfold report_of_reply. rewrite Hreply, Hparse. simpl.
  eexists. split; [reflexivity|]. split.
  - apply dict_get_set_same.
  - intros k Hk. now apply dict_get_set_other.
Qed.

Lemma parsed_object_keeps_fields_witness :
  exists fields,
    fst (run (generate_recommendation_report
                (sample_world (Some (py "k-123"))
                   (Returns (py "{" ++ quote ++ py "_meta" ++ quote ++ py ":0,"
                             ++ quote ++ py "a" ++ quote ++ py ":1}")))
                sample_inputs sample_predictions sample_confidences))
    = Returns (PDict fields)
    /\ dict_get fields (py "_meta")
       = Some (meta_block (sample_world (Some (py "k-123")) (Returns []))
                 sample_inputs sample_predictions sample_confidences)
    /\ forall k, pystr_eqb (py "_meta") k = false ->
                 dict_get fields k
                 = dict_get [(py "_meta", PInt 0); (py "a", PInt 1)] k.
Proof.
  apply (parsed_object_keeps_fields
           (sample_world (Some (py "k-123"))
              (Returns (py "{" ++ quote ++ py "_meta" ++ quote ++ py ":0,"
                        ++ quote ++ py "a" ++ quote ++ py ":1}")))
           sample_inputs sample_predictions sample_confidences sample_request
           (py "{" ++ quote ++ py "_meta" ++ quote ++ py ":0,"
            ++ quote ++ py "a" ++ quote ++ py ":1}")).
  - reflexivity.
  - reflexivity.
  - vm_compute. reflexivity.
Defined.

(** X11: when the reply is not JSON and either has no brace-to-brace
    stretch or that stretch is not JSON either, the report is the reply
    verbatim under [raw], with [_meta]. *)
Theorem unparseable_reply_gives_raw_report
    (w : World) (base_inputs predictions confidences : pydict)
    (req : GenRequest) (content : pystr) (e : exn) :
  snd (run (generate_recommendation_report w base_inputs predictions confidences))
  = [req] ->
  generate_content w req = Returns content ->
  json_loads (recursion_limit w) content = Raises e ->
  (re_search_braces content = None
   \/ exists group e', re_search_braces content = Some group
                       /\ json_loads (recursion_limit w) group = Raises e') ->
  fst (run (generate_recommendation_report w base_inputs predictions confidences))
  = Returns (PDict [ (py "raw", PStr content);
                     (py "_meta", meta_block w base_inputs predictions confidences) ]).
Proof.
  rewrite generate_recommendation_report_steps.
  destruct (_get_gemini_client w); [|discriminate].
  destruct (primary_confidence_percent w confidences) as [pct|]; [|discriminate].
  destruct (json_dumps w (user_payload w base_inputs predictions pct)) as [js|];
    [|discriminate].
  simpl. intros Hsent. inversion Hsent; subst req; clear Hsent.
  intros Hreply Hbad Hgroup.
  unfold report_of_reply, parse_response, try_outcome. rewrite Hreply, Hbad.
  destruct Hgroup as [-> | (group & e' & -> & ->)]; reflexivity.
Qed.

Lemma unparseable_reply_gives_raw_report_witness :
  fst (run (generate_recommendation_report
              (sample_world (Some (py "k-123")) (Returns (py "{a} and {b}")))
              sample_inputs sample_predictions sample_confidences))
  = Returns (PDict [ (py "raw", PStr (py "{a} and {b}"));
                     (py "_meta",
                      meta_block (sample_world (Some (py "k-123")) (Returns []))
                        sample_inputs sample_predictions sample_confidences) ]).
Proof.
  apply (unparseable_reply_gives_raw_report
           (sample_world (Some (py "k-123")) (Returns (py "{a} and {b}")))
           sample_inputs sample_predictions sample_confidences sample_request
           (py "{a} and {b}")
           (json_error "Expecting property name enclosed in double quotes")).
  - reflexivity.
  - reflexivity.
  - vm_compute. reflexivity.
  - right. exists (py "{a} and {b}"),
      (json_error "Expecting property name enclosed in double quotes").
    split; vm_compute; reflexivity.
Defined.

(** X12: without a confidence for the primary fertilizer (the key is
    missing or holds [None]) nothing is rounded: the call goes the same way
    whatever the rounding would do. *)
Theorem absent_confidence_skips_rounding
    (w : World) (base_inputs predictions confidences : pydict)
    (rp : pyval -> outcome pyval) :
  dict_get confidences (py "Primary_Fertilizer") = None
  \/ dict_get confidences (py "Primary_Fertilizer") = Some PNone ->
  primary_confidence_percent w confidences = Returns PNone
  /\ run (generate_recommendation_report (with_round_percent w rp)
            base_inputs predictions confidences)
     = run (generate_recommendation_report w base_inputs predictions confidences).
Proof.
  intros H.
  assert (Hpct : forall w', primary_confidence_percent w' confidences = Returns PNone).
  { intros w'. unfold primary_confidence_percent, dict_get_default.
    destruct H as [-> | ->]; reflexivity. }
  split; [apply Hpct|].
  rewrite !generate_recommendation_report_steps, !Hpct. reflexivity.
Qed.

Lemma absent_confidence_skips_rounding_witness :
  run (generate_recommendation_report
         (with_round_percent (sample_world (Some (py "k-123")) (Returns (py "{}")))
            (fun _ => Raises (mkExn ValueError (py "cannot convert float NaN to integer"))))
         sample_inputs sample_predictions [(py "pH_Amendment", PFloat (py "0.5"))])
  = run (generate_recommendation_report
           (sample_world (Some (py "k-123")) (Returns (py "{}")))
           sample_inputs sample_predictions [(py "pH_Amendment", PFloat (py "0.5"))]).
Proof.
  apply (absent_confidence_skips_rounding
           (sample_world (Some (py "k-123")) (Returns (py "{}")))).
  left. reflexivity.
Defined.

(** X13: a confidence for the primary fertilizer that cannot be turned
    into a rounded percentage makes the call raise that exception, before
    anything is sent. *)
Theorem rounding_failure_raises
    (w : World) (base_inputs predictions confidences : pydict)
    (key : pystr) (v : pyval) (e : exn) :
  _get_gemini_client w = Returns key ->
  dict_get confidences (py "Primary_Fertilizer") = Some v ->
  v <> PNone ->
  round_percent w v = Raises e ->
  run (generate_recommendation_report w base_inputs predictions confidences)
  = (Raises e, []).
Proof.
  intros Hclient Hget Hv Hround.
  rewrite generate_recommendation_report_steps, Hclient.
  unfold primary_confidence_percent, dict_get_default. rewrite Hget.
  destruct v; try congruence; rewrite Hround; reflexivity.
Qed.

Lemma rounding_failure_raises_witness :
  run (generate_recommendation_report
         (with_round_percent (sample_world (Some (py "k-123")) (Returns (py "{}")))
            (fun _ => Raises (mkExn ValueError (py "cannot convert float NaN to integer"))))
         sample_inputs sample_predictions [(py "Primary_Fertilizer", PFloat (py "nan"))])
  = (Raises (mkExn ValueError (py "cannot convert float NaN to integer")), []).
Proof.
  apply (rounding_failure_raises _ _ _ _ (py "k-123") (PFloat (py "nan"))).
  - reflexivity.
  - reflexivity.
  - discriminate.
  - reflexivity.
Defined.

(** X14: when the payload cannot be serialised, the call raises that
    exception before anything is sent. *)
Theorem serialisation_failure_raises
    (w : World) (base_inputs predictions confidences : pydict)
    (key : pystr) (pct : pyval) (e : exn) :
  _get_gemini_client w = Returns key ->
  primary_confidence_percent w confidences = Returns pct ->
  json_dumps w (user_payload w base_inputs predictions pct) = Raises e ->
  run (generate_recommendation_report w base_inputs predictions confidences)
  = (Raises e, []).
Proof.
  intros Hclient Hpct Hdumps.
  now rewrite generate_recommendation_report_steps, Hclient, Hpct, Hdumps.
Qed.

Lemma serialisation_failure_raises_witness :
  run (generate_recommendation_report
         (mkWorld true (Some (py "k-123")) None (fun _ => Returns (PInt 87))
            (fun _ => py "2024-06-01")
            (fun _ => Raises (mkExn TypeError
                                (py "Object of type date is not JSON serializable")))
            1000 (fun _ => Returns (py "{}")) (mkDatetime 2024 5 17 9 30 0 0))
         sample_inputs sample_predictions sample_confidences)
  = (Raises (mkExn TypeError (py "Object of type date is not JSON serializable")), []).
Proof.
  apply (serialisation_failure_raises _ _ _ _ (py "k-123") (PInt 87)).
  - reflexivity.
  - reflexivity.
  - reflexivity.
Defined.

(** ** More on the brace search *)

(** X15: the search finds a match exactly when an opening brace is
    followed, somewhere, by a closing one; the match is the stretch of the
    text from its first opening brace to its last closing brace. *)
Theorem re_search_braces_iff (content group : pystr) :
  re_search_braces content = Some group
  <-> exists pre mid post,
        content = pre ++ group ++ post
        /\ group = [123] ++ mid ++ [125]
        /\ ~ In 123 pre /\ ~ In 125 post.
Proof.
  split.
  - unfold re_search_braces.
    destruct (from_first_open content) as [m|] eqn:E; [|discriminate].
    intros G.
    destruct (from_first_open_spec _ _ E) as (pre & t & -> & -> & Hpre).
    destruct (upto_last_close_spec _ _ G) as (q & post & -> & Hm & Hpost).
    destruct q as [|c q]; simpl in Hm; inversion Hm; subst.
    exists pre, q, post. repeat split; assumption.
  - intros (pre & mid & post & -> & -> & Hpre & Hpost).
    rewrite <- !app_assoc. now apply re_search_braces_match.
Qed.

Lemma re_search_braces_iff_witness :
  exists pre mid post,
    py "a}b{c}d{e}f{" = pre ++ py "{c}d{e}" ++ post
    /\ py "{c}d{e}" = [123] ++ mid ++ [125]
    /\ ~ In 123 pre /\ ~ In 125 post.
Proof.
  apply (proj1 (re_search_braces_iff (py "a}b{c}d{e}f{") (py "{c}d{e}"))).
  vm_compute. reflexivity.
Defined.
